(** * dr_conversion_compare: a shallow embedding of the sweep driver

    The Python module [dr_conversion_compare.py] drives the SLiM simulator over
    a sweep of gRNA counts, scrapes one field out of its textual output and
    averages it.  This development embeds the four functions that carry the
    logic ([calculate_average], [parse_slim], [configure_slim_command_line],
    [collect_data]) and settles what the specification says about them.

    Conventions.
    - A Python [str] is a [string]; a character is read as the code point
      0..255 it denotes.
    - A Python [float] is a binary64 value, here a primitive [float].
    - A raised exception is the [Raise] outcome; the exception classes are the
      ones the embedded statements can raise.
    - The parameter dictionary is an insertion-ordered association list, and
      the functions that receive it run in a state monad that holds it, so
      that what they do to the caller's dictionary is visible. *)

From Stdlib Require Import List String Ascii Bool Arith ZArith Lia.
From Stdlib Require Import Floats DecimalString.
Import ListNotations.

Local Open Scope string_scope.
Local Open Scope list_scope.

(** ** Outcomes of a Python call *)

Inductive exn : Type :=
| KeyError (key : string)
| IndexError
| UnboundLocalError (name : string)
| TypeError
| ValueError (arg : string).

Inductive outcome (A : Type) : Type :=
| Return (a : A)
| Raise (e : exn).

Arguments Return {A} a.
Arguments Raise {A} e.

(** ** Strings as Python sees them *)

Module PyStr.

(** [str.isspace] on one character: TAB, LF, VT, FF, CR, the separators
    FS GS RS US, the space, NEL and the no-break space. *)
Definition isspace (c : ascii) : bool :=
  let n := nat_of_ascii c in
  (((9 <=? n) && (n <=? 13)) || ((28 <=? n) && (n <=? 32))
   || (n =? 133) || (n =? 160))%nat.

Definition newline : ascii := ascii_of_nat 10.

(** [s.split(sep)] for a one-character separator: never empty, keeps empty
    pieces. *)
Fixpoint split_on (sep : ascii) (s : string) : list string :=
  match s with
  | EmptyString => [EmptyString]
  | String c rest =>
      if Ascii.eqb c sep then EmptyString :: split_on sep rest
      else match split_on sep rest with
           | piece :: pieces => String c piece :: pieces
           | [] => [String c EmptyString]
           end
  end.

(** [s.startswith(prefix)]. *)
Fixpoint startswith (prefix s : string) : bool :=
  match prefix, s with
  | EmptyString, _ => true
  | String _ _, EmptyString => false
  | String p prefix', String c s' => Ascii.eqb p c && startswith prefix' s'
  end.

(** The word being collected is closed when a space or the end is met. *)
Definition flush (word : string) : list string :=
  match word with
  | EmptyString => []
  | _ => [word]
  end.

Fixpoint split_from (word s : string) : list string :=
  match s with
  | EmptyString => flush word
  | String c rest =>
      if isspace c then flush word ++ split_from EmptyString rest
      else split_from (word ++ String c EmptyString) rest
  end.

(** [s.split()]: the maximal runs of non-space characters. *)
Definition split (s : string) : list string := split_from EmptyString s.

(** No character of [s] is a space. *)
Fixpoint spaceless (s : string) : bool :=
  match s with
  | EmptyString => true
  | String c rest => negb (isspace c) && spaceless rest
  end.

(** [str(n)] for an [int], in decimal.  (An interpreter with a limit on the
    digits of such a conversion, 4300 by default where there is one, raises
    ValueError beyond it; integers that long are outside this model, see
    [renderable].) *)
Definition of_int (n : Z) : string := NilZero.string_of_int (Z.to_int n).

End PyStr.

(** ** parse_slim *)

Definition marker : string := "PYTHON:: ".

(** The loop of [parse_slim] over the remaining lines; [dr_rate] is the local
    variable, [None] while it is unbound. *)
Fixpoint parse_lines (lines : list string) (dr_rate : option string)
  : outcome string :=
  match lines with
  | [] =>
      match dr_rate with
      | Some rate => Return rate
      | None => Raise (UnboundLocalError "dr_rate")
      end
  | line :: rest =>
      if PyStr.startswith marker line then
        let spaced_line := PyStr.split line in
        match nth_error spaced_line 7 with
        | Some rate => parse_lines rest (Some rate)
        | None => Raise IndexError
        end
      else parse_lines rest dr_rate
  end.

Definition parse_slim (slim_string : string) : outcome string :=
  let lines := PyStr.split_on PyStr.newline slim_string in
  parse_lines lines None.

(** The lines of a text that carry the marker, in order. *)
Definition marker_lines (slim_string : string) : list string :=
  filter (PyStr.startswith marker) (PyStr.split_on PyStr.newline slim_string).

(** ** Values, the parameter dictionary and the outside world *)

Inductive pyval : Type :=
| PBool (b : bool)
| PInt (n : Z)
| PFloat (x : float)
| PStr (s : string).

(** A [dict] with [str] keys, in insertion order. *)
Definition dict : Type := list (string * pyval).

Fixpoint dict_get (key : string) (d : dict) : option pyval :=
  match d with
  | [] => None
  | (k, v) :: rest => if String.eqb k key then Some v else dict_get key rest
  end.

(** [d[key] = v]: an existing key keeps its place, a new one goes last. *)
Fixpoint dict_set (key : string) (v : pyval) (d : dict) : dict :=
  match d with
  | [] => [(key, v)]
  | (k, w) :: rest =>
      if String.eqb k key then (k, v) :: rest
      else (k, w) :: dict_set key v rest
  end.

Definition dict_keys (d : dict) : list string := map fst d.

(** What the process does to the outside, oldest first. *)
Inductive event : Type :=
| Print (line : string)
| Popen (command_line_args : list string).

(** What the module calls but does not define: [repr] and [float] of the
    interpreter, and the simulator, whose standard output may depend on
    everything that happened before and on its argument list. *)
Record environment : Type := {
  float_repr : float -> string;
  float_of_str : string -> option float;
  slim_output : list event -> list string -> string
}.

Record state : Type := {
  args_dict : dict;
  trace : list event
}.

(** ** The monad of a Python call: state and exceptions *)

Definition M (A : Type) : Type := state -> outcome A * state.

Definition ret {A : Type} (a : A) : M A := fun st => (Return a, st).

Definition raise {A : Type} (e : exn) : M A := fun st => (Raise e, st).

Definition bind {A B : Type} (m : M A) (f : A -> M B) : M B :=
  fun st =>
    match m st with
    | (Return a, st') => f a st'
    | (Raise e, st') => (Raise e, st')
    end.

Definition lift {A : Type} (o : outcome A) : M A := fun st => (o, st).

Declare Scope py_scope.
Delimit Scope py_scope with py.
Notation "x <- m ;; k" := (bind m (fun x => k))
  (at level 61, m at next level, right associativity) : py_scope.
Notation "m ;; k" := (bind m (fun _ => k))
  (at level 61, right associativity) : py_scope.
Local Open Scope py_scope.

(** [args_dict[key]]. *)
Definition getitem (key : string) : M pyval :=
  fun st =>
    match dict_get key (args_dict st) with
    | Some v => (Return v, st)
    | None => (Raise (KeyError key), st)
    end.

(** [args_dict[key] = v]. *)
Definition setitem (key : string) (v : pyval) : M unit :=
  fun st =>
    (Return tt,
     {| args_dict := dict_set key v (args_dict st); trace := trace st |}).

(** The keys a [for arg in args_dict] loop walks through. *)
Definition iter_keys : M (list string) :=
  fun st => (Return (dict_keys (args_dict st)), st).

Definition print (line : string) : M unit :=
  fun st =>
    (Return tt,
     {| args_dict := args_dict st; trace := trace st ++ [Print line] |}).

(** ** calculate_average *)

(** The float a count is converted to by [total / count]; exact for the
    lengths a list can have. *)
Definition float_of_len (count : nat) : float :=
  PrimFloat.of_uint63 (Uint63.of_Z (Z.of_nat count)).

(** [sum(nums)] on floats: binary64 additions from the left, starting at 0.
    (Recent interpreters also carry a compensation term for the rounding
    errors; nothing below depends on the last bits of an inexact sum.) *)
Definition py_sum (nums : list float) : float :=
  fold_left PrimFloat.add nums 0%float.

Definition calculate_average (nums : list float) : pyval :=
  let total := py_sum nums in
  let count := List.length nums in
  if (0 <? count)%nat then
    let average := (total / float_of_len count)%float in
    PFloat average
  else PInt 0.

(** ** run_slim *)

(** The child process is launched with the argument list and its standard
    output is returned; the standard error is dropped. *)
Definition run_slim (env : environment) (command_line_args : list string)
  : M string :=
  fun st =>
    let out := slim_output env (trace st) command_line_args in
    (Return out,
     {| args_dict := args_dict st;
        trace := trace st ++ [Popen command_line_args] |}).

(** ** configure_slim_command_line *)

(** The text an f-string puts for [{v}]. *)
Definition format_value (env : environment) (v : pyval) : string :=
  match v with
  | PBool b => if b then "True" else "False"
  | PInt n => PyStr.of_int n
  | PFloat x => float_repr env x
  | PStr s => s
  end.

(** The text appended for one parameter: the [isinstance(_, bool)] test and
    the two f-strings. *)
Definition render_value (env : environment) (v : pyval) : string :=
  match v with
  | PBool b => if b then "T" else "F"
  | _ => format_value env v
  end.

(** The loop over the keys; [clargs] is the string built so far. *)
Fixpoint configure_args (env : environment) (keys : list string)
  (clargs : string) : M string :=
  match keys with
  | [] => ret clargs
  | arg :: rest =>
      if String.eqb arg "source" then configure_args env rest clargs
      else
        v <- getitem arg ;;
        configure_args env rest
          (clargs ++ ("-d " ++ arg ++ "=" ++ render_value env v ++ " "))
  end.

Definition configure_slim_command_line (env : environment)
  : M (list string) :=
  let clargs := "slim " in
  source <- getitem "source" ;;
  keys <- iter_keys ;;
  clargs <- configure_args env keys clargs ;;
  match source with
  | PStr path => ret (PyStr.split (clargs ++ path))
  | _ => raise TypeError
  end.

(** ** collect_data *)

(** [range(start, stop)]. *)
Definition range (start stop : Z) : list Z :=
  map (fun i => (start + Z.of_nat i)%Z) (seq 0 (Z.to_nat (stop - start))).

(** [float(s)] for a [str]. *)
Definition py_float (env : environment) (s : string) : M float :=
  match float_of_str env s with
  | Some x => ret x
  | None => raise (ValueError s)
  end.

(** The transform of line 136. *)
Definition drive_conversion_of (slim_result : float) : float :=
  ((slim_result - 0.5) / 0.5)%float.

Definition total_runs : Z := 20.

Definition sweep_message (num_grnas : Z) : string :=
  "Running simulations for " ++ PyStr.of_int num_grnas ++ " gRNAs...".

Definition run_message (i num_grnas : Z) : string :=
  "Run " ++ PyStr.of_int (i + 1) ++ "/" ++ PyStr.of_int total_runs
  ++ " for " ++ PyStr.of_int num_grnas ++ " gRNAs".

(** The inner loop, over the remaining values of [i]. *)
Fixpoint repetitions (env : environment) (num_grnas : Z) (runs : list Z)
  (drive_conversions : list float) : M (list float) :=
  match runs with
  | [] => ret drive_conversions
  | i :: rest =>
      print (run_message i num_grnas) ;;
      clargs <- configure_slim_command_line env ;;
      slim_outcome <- run_slim env clargs ;;
      parsed_result <- lift (parse_slim slim_outcome) ;;
      slim_result <- py_float env parsed_result ;;
      let drive_conversion := drive_conversion_of slim_result in
      repetitions env num_grnas rest (drive_conversions ++ [drive_conversion])
  end.

(** The outer loop, over the remaining sweep points. *)
Fixpoint sweep (env : environment) (points : list Z)
  (drive_conversion_ngrnas : list pyval) : M (list pyval) :=
  match points with
  | [] => ret drive_conversion_ngrnas
  | num_grnas :: rest =>
      setitem "NUM_GRNAS" (PInt num_grnas) ;;
      print (sweep_message num_grnas) ;;
      drive_conversions <- repetitions env num_grnas (range 0 total_runs) [] ;;
      sweep env rest
        (drive_conversion_ngrnas ++ [calculate_average drive_conversions])
  end.

Definition collect_data (env : environment) : M (list pyval) :=
  sweep env (range 1 13) [].

(** ** What the specification says, in its own words *)

Definition nl : string := String PyStr.newline EmptyString.

Fixpoint last_error {A : Type} (l : list A) : option A :=
  match l with
  | [] => None
  | x :: rest =>
      match last_error rest with
      | Some y => Some y
      | None => Some x
      end
  end.

(** The 8th whitespace-delimited token (index 7) of a line. *)
Definition eighth_token (line : string) : option string :=
  nth_error (PyStr.split line) 7.

(** Section 4.3: a text with a marker line yields the 8th token of the last
    marker line. *)
Definition parser_returns_last_eighth (slim_string : string) : Prop :=
  marker_lines slim_string <> [] ->
  exists line rate,
    last_error (marker_lines slim_string) = Some line
    /\ eighth_token line = Some rate
    /\ parse_slim slim_string = Return rate.

(** The entries of a mapping other than "source", in order. *)
Definition parameters (d : dict) : dict :=
  filter (fun kv => negb (String.eqb (fst kv) "source")) d.

(** The text the builder appends for one parameter, and for a run of them. *)
Definition parameter_text (env : environment) (kv : string * pyval) : string :=
  "-d " ++ fst kv ++ "=" ++ render_value env (snd kv) ++ " ".

Definition parameters_text (env : environment) (ps : dict) : string :=
  fold_right (fun kv text => (parameter_text env kv ++ text)%string) "" ps.

(** The pair of tokens that encodes [name=value]. *)
Definition parameter_tokens (env : environment) (kv : string * pyval)
  : list string :=
  ["-d"; (fst kv ++ "=" ++ render_value env (snd kv))%string].

Definition with_args (d : dict) : state := {| args_dict := d; trace := [] |}.

(** Section 4.1 and 8: with a "source" entry [path] and N other entries the
    token list has 1 + 2*N + 1 tokens, starts with the simulator name and ends
    with the source path. *)
Definition builder_shape (env : environment) (d : dict) (path : string)
  : Prop :=
  exists tokens,
    fst (configure_slim_command_line env (with_args d)) = Return tokens
    /\ List.length tokens = 1 + 2 * List.length (parameters d) + 1
    /\ hd_error tokens = Some "slim"
    /\ last_error tokens = Some path.

(** The argument list the builder makes of a mapping ([[]] if it raises). *)
Definition command_line (env : environment) (d : dict) : list string :=
  match fst (configure_slim_command_line env (with_args d)) with
  | Return tokens => tokens
  | Raise _ => []
  end.

(** Section 3: the sweep points, in the order of the sweep. *)
Definition sweep_points : list Z := [1; 2; 3; 4; 5; 6; 7; 8; 9; 10; 11; 12]%Z.

(** What one repetition shows to the outside: the progress line, then the
    launch of the simulator. *)
Definition run_events (env : environment) (d : dict) (num_grnas i : Z)
  : list event :=
  [Print (run_message i num_grnas); Popen (command_line env d)].

(** What one sweep point shows: its progress line, then the repetitions, the
    sweep key being set to the point. *)
Definition sweep_events (env : environment) (d : dict) (num_grnas : Z)
  : list event :=
  Print (sweep_message num_grnas)
  :: flat_map (run_events env (dict_set "NUM_GRNAS" (PInt num_grnas) d)
                          num_grnas)
              (range 0 total_runs).

Definition is_popen (e : event) : bool :=
  match e with
  | Popen _ => true
  | Print _ => false
  end.

(** The number of child processes launched in a run of events. *)
Definition launches (events : list event) : nat :=
  List.length (filter is_popen events).

(** [mean] is what the aggregator appends for the sweep point [num_grnas]: the
    average of the 20 values of an inner loop run with the sweep key at that
    point. *)
Definition point_result (env : environment) (num_grnas : Z) (mean : pyval)
  : Prop :=
  exists st st' drive_conversions,
    dict_get "NUM_GRNAS" (args_dict st) = Some (PInt num_grnas)
    /\ repetitions env num_grnas (range 0 total_runs) [] st
       = (Return drive_conversions, st')
    /\ List.length drive_conversions = 20
    /\ mean = calculate_average drive_conversions.

(** [y] is the transform of a field parsed from some output of the
    simulator. *)
Definition sampled (env : environment) (y : float) : Prop :=
  exists history command_line_args rate x,
    parse_slim (slim_output env history command_line_args) = Return rate
    /\ float_of_str env rate = Some x
    /\ y = drive_conversion_of x.

(** A simulator whose every output carries a field that [float] accepts. *)
Definition parsable (env : environment) : Prop :=
  forall history command_line_args,
  exists rate x,
    parse_slim (slim_output env history command_line_args) = Return rate
    /\ float_of_str env rate = Some x.

(** Section 8: with a runner and parser stubbed to yield the same field at
    every repetition, the sweep result is 12 times the transform of that
    field. *)
Definition constant_sweep_claim (env : environment) (st : state) : Prop :=
  forall rate x,
    (forall history command_line_args,
        parse_slim (slim_output env history command_line_args) = Return rate) ->
    float_of_str env rate = Some x ->
    fst (collect_data env st)
    = Return (repeat (PFloat (drive_conversion_of x)) 12).

(** ** Test doubles *)

(** An interpreter that knows the few floats of the examples. *)
Definition table_repr (x : float) : string :=
  if (x =? 0.5)%float then "0.5"
  else if (x =? 1)%float then "1.0"
  else "0.0".

Definition table_float (s : string) : option float :=
  if String.eqb s "0.5" then Some 0.5%float
  else if String.eqb s "1.0" then Some 1%float
  else if String.eqb s "1e307" then Some 0x1.c7b1f3cac7433p+1019%float
  else None.

(** A simulator that prints the same text at every run. *)
Definition stub_environment (out : string) : environment :=
  {| float_repr := table_repr;
     float_of_str := table_float;
     slim_output := fun _ _ => out |}.

(** A simulator that reports the rate 1.0 at every run, one that reports
    1e307, and a mapping as [main] starts from. *)
Definition unit_environment : environment :=
  stub_environment "PYTHON:: a b c d e f 1.0 h".

Definition overflow_environment : environment :=
  stub_environment "PYTHON:: a b c d e f 1e307 h".

Definition sample_state : state :=
  with_args [("source", PStr "m.slim"); ("CAPACITY", PInt 50000000)].

(** ** plot and main *)

(** The x values of the two series of [plot] (line 21). *)
Definition gRNAs : list Z := [1; 2; 3; 4; 5; 6; 7; 8; 9; 10; 11; 12]%Z.

(** [vars(parser.parse_args())] with the two common parameters added; the
    only option of the parser is the string [source]. *)
Definition common_args (source : string) : dict :=
  let args_dict := [("source", PStr source)] in
  let args_dict := dict_set "CAPACITY" (PInt 50000000) args_dict in
  let args_dict := dict_set "DROP_SIZE" (PInt 1000) args_dict in
  args_dict.

(** The copy for the old model; the literals 0.9, 1.0, 0.95, 0.01, 0.055 and
    1.0 as the binary64 values they denote. *)
Definition args_dict_old (source : string) : dict :=
  let args_dict_old := common_args source in
  let args_dict_old :=
    dict_set "DRIVE_FITNESS_VALUE" (PFloat 0x1.ccccccccccccdp-1) args_dict_old in
  let args_dict_old :=
    dict_set "FEMALE_SOMATIC_FITNESS_VALUE" (PFloat 1) args_dict_old in
  let args_dict_old :=
    dict_set "GENE_DISRUPTION_DRIVE_FITNESS_MULTIPLIER"
             (PFloat 0x1.e666666666666p-1) args_dict_old in
  let args_dict_old :=
    dict_set "R1_OCCURRENCE_RATE" (PFloat 0x1.47ae147ae147bp-7) args_dict_old in
  let args_dict_old :=
    dict_set "HOMING_EDGE_EFFECT" (PFloat 0x1.c28f5c28f5c29p-5) args_dict_old in
  let args_dict_old :=
    dict_set "DOUBLE_MISMATCH_PENALTY" (PFloat 1) args_dict_old in
  args_dict_old.

(** The copy for the new model; the literals 1.0, 1.0, 1.0, 0.01, 0.083 and
    0.313. *)
Definition args_dict_new (source : string) : dict :=
  let args_dict_new := common_args source in
  let args_dict_new :=
    dict_set "DRIVE_FITNESS_VALUE" (PFloat 1) args_dict_new in
  let args_dict_new :=
    dict_set "FEMALE_SOMATIC_FITNESS_VALUE" (PFloat 1) args_dict_new in
  let args_dict_new :=
    dict_set "GENE_DISRUPTION_DRIVE_FITNESS_MULTIPLIER" (PFloat 1)
             args_dict_new in
  let args_dict_new :=
    dict_set "R1_OCCURRENCE_RATE" (PFloat 0x1.47ae147ae147bp-7) args_dict_new in
  let args_dict_new :=
    dict_set "HOMING_EDGE_EFFECT" (PFloat 0x1.53f7ced916873p-4) args_dict_new in
  let args_dict_new :=
    dict_set "DOUBLE_MISMATCH_PENALTY" (PFloat 0x1.4083126e978d5p-2)
             args_dict_new in
  args_dict_new.

(** [main] up to the call of [plot]: the two sweeps in sequence, each on its
    own copy of the mapping; the result is the pair of sequences handed to
    [plot], with everything printed and launched since [events]. *)
Definition main (env : environment) (source : string) (events : list event)
  : outcome (list pyval * list pyval) * list event :=
  match collect_data env
          {| args_dict := args_dict_old source; trace := events |} with
  | (Raise e, st) => (Raise e, trace st)
  | (Return drive_conversion_ngrnas_old, st) =>
      match collect_data env
              {| args_dict := args_dict_new source; trace := trace st |} with
      | (Raise e, st') => (Raise e, trace st')
      | (Return drive_conversion_ngrnas_new, st') =>
          (Return (drive_conversion_ngrnas_old, drive_conversion_ngrnas_new),
           trace st')
      end
  end.

(** ** Auxiliary notions for the properties *)

(** [sep.join(pieces)]. *)
Fixpoint str_join (sep : string) (pieces : list string) : string :=
  match pieces with
  | [] => ""
  | [piece] => piece
  | piece :: rest => piece ++ sep ++ str_join sep rest
  end.

(** The character [c] occurs in [s]. *)
Fixpoint occurs (c : ascii) (s : string) : bool :=
  match s with
  | EmptyString => false
  | String x rest => Ascii.eqb x c || occurs c rest
  end.

(** A token as [str.split()] yields them: not empty, no whitespace. *)
Definition is_token (t : string) : Prop :=
  t <> "" /\ PyStr.spaceless t = true.


(** The default limit of the interpreter on the digits of an integer turned
    into text. *)
Definition int_max_str_digits : Z := 4300.

(** A value the interpreter can turn into text: any boolean, float or
    string, and an integer within the digit limit. *)
Definition renderable (v : pyval) : Prop :=
  match v with
  | PInt n => (Z.abs n < 10 ^ int_max_str_digits)%Z
  | _ => True
  end.

(** * Properties *)

(** ** The output parser *)

Lemma last_error_cons {A : Type} (x : A) (l : list A) :
  last_error (x :: l) = Some (match last_error l with Some y => y | None => x end).
Proof. simpl. destruct (last_error l); reflexivity. Qed.

(** What the loop computes when no marker line is too short: the field of the
    last marker line, or whatever [dr_rate] held on entry. *)
Lemma parse_lines_spec (lines : list string) :
  forall dr_rate,
    Forall (fun line => eighth_token line <> None)
           (filter (PyStr.startswith marker) lines) ->
    parse_lines lines dr_rate =
    match last_error (filter (PyStr.startswith marker) lines) with
    | Some line =>
        match eighth_token line with
        | Some rate => Return rate
        | None => Raise IndexError
        end
    | None =>
        match dr_rate with
        | Some rate => Return rate
        | None => Raise (UnboundLocalError "dr_rate")
        end
    end.
Proof.
  induction lines as [|line rest IH]; intros dr_rate Hlong;
    cbn [parse_lines filter last_error] in *.
  - reflexivity.
  - destruct (PyStr.startswith marker line) eqn:Hm.
    + inversion Hlong as [|? ? Hline Hrest]; subst. cbv beta in Hline.
      fold (eighth_token line).
      destruct (eighth_token line) as [rate|] eqn:Hrate; [|congruence].
      rewrite (IH (Some rate) Hrest), last_error_cons.
      destruct (last_error (filter (PyStr.startswith marker) rest));
        [reflexivity | now rewrite Hrate].
    + now apply IH.
Qed.

(** A marker line that is too short stops the scan, whatever comes after. *)
Lemma parse_lines_short (lines : list string) :
  forall dr_rate,
    Exists (fun line => eighth_token line = None)
           (filter (PyStr.startswith marker) lines) ->
    parse_lines lines dr_rate = Raise IndexError.
Proof.
  induction lines as [|line rest IH]; intros dr_rate Hshort;
    cbn [parse_lines filter] in *.
  - inversion Hshort.
  - destruct (PyStr.startswith marker line) eqn:Hm.
    + fold (eighth_token line).
      destruct (eighth_token line) as [rate|] eqn:Hrate; [|reflexivity].
      inversion Hshort as [? ? Hline|? ? Hrest]; subst;
        [cbv beta in Hline; congruence|].
      now apply IH.
    + now apply IH.
Qed.

(** Without a marker line the local variable is read before it is bound. *)
Lemma parse_slim_no_marker (slim_string : string) :
  marker_lines slim_string = [] ->
  parse_slim slim_string = Raise (UnboundLocalError "dr_rate").
Proof.
  intros Hnone. unfold parse_slim.
  rewrite parse_lines_spec; unfold marker_lines in Hnone; rewrite Hnone.
  - reflexivity.
  - constructor.
Qed.

(** C1: on a text without a marker line (here the empty output of a crashed
    run) the parser does not raise a parsing error of its own: it fails with
    the unbound-variable fault on [dr_rate]. *)
Theorem parse_slim_empty_output_unbound :
  marker_lines "" = []
  /\ parse_slim "" = Raise (UnboundLocalError "dr_rate").
Proof. split; reflexivity. Qed.

(** C2, as stated, fails: on the marker line of the specification the parser
    does not return "0.73". *)
Lemma parse_slim_example_not_073 :
  parse_slim "PYTHON:: a b c d e f g 0.73 h" <> Return "0.73".
Proof. vm_compute. discriminate. Qed.

(** C2, amended: on the marker line "PYTHON:: a b c d e f g 0.73 h" the parser
    returns "g", the token at index 7 when the marker token itself is counted
    at index 0; "0.73" is the token at index 8. *)
Theorem parse_slim_example_returns_g :
  parse_slim "PYTHON:: a b c d e f g 0.73 h" = Return "g"
  /\ nth_error (PyStr.split "PYTHON:: a b c d e f g 0.73 h") 8 = Some "0.73".
Proof. split; reflexivity. Qed.

(** C3, as stated, fails: an earlier marker line with fewer than 8 tokens
    raises IndexError although the last marker line has an 8th token. *)
Lemma parser_returns_last_eighth_fails :
  ~ parser_returns_last_eighth
      ("PYTHON:: x" ++ nl ++ "PYTHON:: a b c d e f g h").
Proof.
  intros Hclaim.
  destruct Hclaim as (line & rate & _ & _ & Hret).
  - vm_compute. discriminate.
  - vm_compute in Hret. discriminate.
Qed.

(** C3, amended: when the text has a marker line and every marker line has at
    least 8 whitespace-delimited tokens, the parser returns the 8th token
    (index 7) of the last marker line. *)
Theorem parse_slim_last_marker_line (slim_string : string) :
  marker_lines slim_string <> [] ->
  Forall (fun line => eighth_token line <> None) (marker_lines slim_string) ->
  exists line rate,
    last_error (marker_lines slim_string) = Some line
    /\ eighth_token line = Some rate
    /\ parse_slim slim_string = Return rate.
Proof.
  intros Hsome Hlong. unfold parse_slim, marker_lines in *.
  rewrite (parse_lines_spec _ None Hlong).
  set (ms := filter (PyStr.startswith marker)
                    (PyStr.split_on PyStr.newline slim_string)) in *.
  destruct ms as [|m ms']; [congruence|].
  rewrite last_error_cons.
  set (line := match last_error ms' with Some y => y | None => m end).
  assert (Hin : In line (m :: ms')).
  { subst line. clear. revert m. induction ms' as [|a l IH]; intros m.
    - left; reflexivity.
    - rewrite last_error_cons. right. apply IH. }
  rewrite Forall_forall in Hlong. specialize (Hlong line Hin).
  destruct (eighth_token line) as [rate|] eqn:Hrate; [|congruence].
  exists line, rate. auto.
Qed.

Lemma parse_slim_last_marker_line_witness :
  exists line rate,
    last_error (marker_lines ("PYTHON:: 1 2 3 4 5 6 0.1 8" ++ nl
                              ++ "PYTHON:: 1 2 3 4 5 6 0.5 8")) = Some line
    /\ eighth_token line = Some rate
    /\ parse_slim ("PYTHON:: 1 2 3 4 5 6 0.1 8" ++ nl
                   ++ "PYTHON:: 1 2 3 4 5 6 0.5 8") = Return rate.
Proof.
  apply parse_slim_last_marker_line.
  - vm_compute. discriminate.
  - vm_compute. repeat constructor; discriminate.
Defined.

(** ** Splitting on whitespace *)

Lemma append_assoc (a b c : string) :
  ((a ++ b) ++ c = a ++ (b ++ c))%string.
Proof. induction a as [|x a IH]; simpl; [reflexivity | now rewrite IH]. Qed.

Lemma append_empty_r (a : string) : (a ++ "")%string = a.
Proof. induction a as [|x a IH]; simpl; [reflexivity | now rewrite IH]. Qed.

Lemma spaceless_append (a b : string) :
  PyStr.spaceless (a ++ b) = PyStr.spaceless a && PyStr.spaceless b.
Proof.
  induction a as [|x a IH]; simpl; [reflexivity|].
  now rewrite IH, andb_assoc.
Qed.

Lemma flush_nonempty (a : string) (c : ascii) (b : string) :
  PyStr.flush (a ++ String c b) = [(a ++ String c b)%string].
Proof. destruct a; reflexivity. Qed.

(** A run of non-space characters goes to the word being collected. *)
Lemma split_from_spaceless (w : string) :
  forall word s,
    PyStr.spaceless w = true ->
    PyStr.split_from word (w ++ s) = PyStr.split_from (word ++ w) s.
Proof.
  induction w as [|c w IH]; intros word s Hw; simpl in *.
  - now rewrite append_empty_r.
  - apply andb_prop in Hw as [Hc Hw].
    apply negb_true_iff in Hc. rewrite Hc, (IH _ _ Hw), append_assoc.
    reflexivity.
Qed.

(** A word followed by a space is one token. *)
Lemma split_from_word (w s : string) :
  PyStr.spaceless w = true ->
  PyStr.split_from "" (w ++ String " " s)
  = PyStr.flush w ++ PyStr.split_from "" s.
Proof.
  intros Hw. rewrite (split_from_spaceless w "" _ Hw). reflexivity.
Qed.

Lemma split_from_last (w : string) :
  PyStr.spaceless w = true ->
  PyStr.split_from "" w = PyStr.flush w.
Proof.
  intros Hw. rewrite <- (append_empty_r w) at 1.
  rewrite (split_from_spaceless w "" "" Hw). reflexivity.
Qed.

(** ** The dictionary *)

Lemma dict_get_in (d : dict) :
  forall k v, NoDup (dict_keys d) -> In (k, v) d -> dict_get k d = Some v.
Proof.
  induction d as [|[k0 v0] d IH]; intros k v Hnd Hin; simpl in *.
  - contradiction.
  - inversion Hnd as [|? ? Hfresh Hnd']; subst.
    destruct Hin as [Heq|Hin].
    + inversion Heq; subst. now rewrite String.eqb_refl.
    + destruct (String.eqb_spec k0 k) as [->|_].
      * exfalso. apply Hfresh. unfold dict_keys.
        change k with (fst (k, v)). now apply in_map.
      * now apply IH.
Qed.

Lemma dict_get_set_same (key : string) (v : pyval) (d : dict) :
  dict_get key (dict_set key v d) = Some v.
Proof.
  induction d as [|[k w] d IH]; simpl.
  - now rewrite String.eqb_refl.
  - destruct (String.eqb k key) eqn:Hk; simpl; now rewrite Hk.
Qed.

Lemma dict_get_set_other (key k : string) (v : pyval) (d : dict) :
  k <> key -> dict_get k (dict_set key v d) = dict_get k d.
Proof.
  intros Hk. induction d as [|[k0 w] d IH]; simpl.
  - destruct (String.eqb_spec key k); [congruence | reflexivity].
  - destruct (String.eqb_spec k0 key) as [->|Hne]; simpl.
    + destruct (String.eqb_spec key k); [congruence | reflexivity].
    + now rewrite IH.
Qed.

Lemma dict_set_set (key : string) (v w : pyval) (d : dict) :
  dict_set key w (dict_set key v d) = dict_set key w d.
Proof.
  induction d as [|[k u] d IH]; simpl.
  - now rewrite String.eqb_refl.
  - destruct (String.eqb k key) eqn:Hk; simpl; rewrite Hk; [reflexivity|].
    now rewrite IH.
Qed.

(** ** The command builder *)

Section Builder.

Variable env : environment.

(** The loop reads the dictionary and leaves the state as it found it. *)
Lemma configure_args_state (keys : list string) :
  forall clargs st, snd (configure_args env keys clargs st) = st.
Proof.
  induction keys as [|arg rest IH]; intros clargs st; simpl.
  - reflexivity.
  - destruct (String.eqb arg "source"); [apply IH|].
    unfold bind, getitem.
    destruct (dict_get arg (args_dict st)); [apply IH | reflexivity].
Qed.

(** The string the loop builds over a run of entries of the dictionary. *)
Lemma configure_args_spec (st : state) (entries : dict) :
  forall clargs,
    (forall k v, In (k, v) entries -> dict_get k (args_dict st) = Some v) ->
    configure_args env (map fst entries) clargs st
    = (Return (clargs ++ parameters_text env (parameters entries))%string, st).
Proof.
  induction entries as [|[k v] entries IH]; intros clargs Hget.
  - simpl. now rewrite append_empty_r.
  - cbn [map fst configure_args parameters filter negb].
    fold (parameters entries).
    assert (Hrest : forall k' v', In (k', v') entries ->
                                  dict_get k' (args_dict st) = Some v')
      by (intros; apply Hget; now right).
    destruct (String.eqb k "source"); cbn [negb].
    + now apply IH.
    + unfold bind, getitem. rewrite (Hget k v (or_introl eq_refl)).
      rewrite (IH _ Hrest). cbn [parameters_text fold_right].
      fold (parameters_text env (parameters entries)).
      now rewrite append_assoc.
Qed.

(** The text of one parameter splits into its two tokens. *)
Lemma split_parameter_text (kv : string * pyval) (rest : string) :
  PyStr.spaceless (fst kv) = true ->
  PyStr.spaceless (render_value env (snd kv)) = true ->
  PyStr.split_from "" (parameter_text env kv ++ rest)
  = parameter_tokens env kv ++ PyStr.split_from "" rest.
Proof.
  intros Hk Hv. unfold parameter_text, parameter_tokens.
  set (k := fst kv). set (r := render_value env (snd kv)).
  replace (("-d " ++ k ++ "=" ++ r ++ " ") ++ rest)%string
    with ("-d" ++ String " " ((k ++ "=" ++ r) ++ String " " rest))%string.
  - rewrite split_from_word by reflexivity.
    rewrite split_from_word.
    + replace (k ++ "=" ++ r)%string with (k ++ String "=" r)%string
        by reflexivity.
      now rewrite flush_nonempty.
    + rewrite !spaceless_append. fold k in Hk. fold r in Hv.
      now rewrite Hk, Hv.
  - cbn [append]. do 3 f_equal. rewrite !append_assoc. cbn [append].
    rewrite !append_assoc. reflexivity.
Qed.

Lemma split_parameters_text (ps : dict) (rest : string) :
  (forall k v, In (k, v) ps ->
     PyStr.spaceless k = true
     /\ PyStr.spaceless (render_value env v) = true) ->
  PyStr.split_from "" (parameters_text env ps ++ rest)
  = flat_map (parameter_tokens env) ps ++ PyStr.split_from "" rest.
Proof.
  induction ps as [|[k v] ps IH]; intros Hps.
  - reflexivity.
  - cbn [parameters_text fold_right flat_map].
    fold (parameters_text env ps).
    destruct (Hps k v (or_introl eq_refl)) as [Hk Hv].
    rewrite append_assoc, split_parameter_text by assumption.
    rewrite IH by (intros; apply Hps; now right).
    now rewrite app_assoc.
Qed.

Lemma last_error_app_one {A : Type} (l : list A) (x : A) :
  last_error (l ++ [x]) = Some x.
Proof.
  induction l as [|y l IH]; [reflexivity|].
  cbn [app]. now rewrite last_error_cons, IH.
Qed.

Lemma flat_map_pairs_length (ps : dict) :
  List.length (flat_map (parameter_tokens env) ps) = 2 * List.length ps.
Proof. induction ps as [|kv ps IH]; simpl in *; [reflexivity | lia]. Qed.

(** C4, amended: for a mapping (with distinct keys) whose "source" entry is a
    non-empty string without whitespace, and whose N other entries have names
    and rendered values without whitespace, the builder returns "slim", then
    the pair "-d", "name=value" of every entry but "source" in order, then the
    source path: 1 + 2*N + 1 tokens, a boolean value being rendered as "T" or
    "F". *)
Theorem configure_slim_command_line_tokens (st : state) (path : string) :
  NoDup (dict_keys (args_dict st)) ->
  dict_get "source" (args_dict st) = Some (PStr path) ->
  path <> "" ->
  PyStr.spaceless path = true ->
  (forall k v, In (k, v) (parameters (args_dict st)) ->
     PyStr.spaceless k = true
     /\ PyStr.spaceless (render_value env v) = true) ->
  exists tokens,
    configure_slim_command_line env st = (Return tokens, st)
    /\ tokens = "slim" :: flat_map (parameter_tokens env)
                            (parameters (args_dict st)) ++ [path]
    /\ List.length tokens = 1 + 2 * List.length (parameters (args_dict st)) + 1
    /\ hd_error tokens = Some "slim"
    /\ last_error tokens = Some path
    /\ (forall k b, In (k, PBool b) (parameters (args_dict st)) ->
          In (k ++ "=" ++ (if b then "T" else "F"))%string tokens).
Proof.
  intros Hnd Hsrc Hpath Hspace Hps.
  set (ps := parameters (args_dict st)) in *.
  exists ("slim" :: flat_map (parameter_tokens env) ps ++ [path]).
  split; [|split; [reflexivity|split; [|split; [reflexivity|split]]]].
  - unfold configure_slim_command_line, bind, getitem, iter_keys.
    rewrite Hsrc. unfold dict_keys.
    rewrite configure_args_spec
      by (intros k v Hin; now apply dict_get_in).
    fold ps. unfold ret. f_equal. f_equal. unfold PyStr.split.
    rewrite append_assoc.
    change ("slim " ++ parameters_text env ps ++ path)%string
      with ("slim" ++ String " " (parameters_text env ps ++ path))%string.
    rewrite split_from_word by reflexivity.
    rewrite split_parameters_text by assumption.
    rewrite split_from_last by assumption.
    destruct path; [congruence | reflexivity].
  - cbn [List.length]. rewrite length_app, flat_map_pairs_length.
    cbn [List.length]. lia.
  - change ("slim" :: flat_map (parameter_tokens env) ps ++ [path])
      with (("slim" :: flat_map (parameter_tokens env) ps) ++ [path]).
    apply last_error_app_one.
  - intros k b Hin. right. apply in_or_app. left.
    apply in_flat_map. exists (k, PBool b). split; [assumption|].
    right. left. reflexivity.
Qed.

(** The builder leaves the state as it found it. *)
Lemma configure_slim_command_line_state (st : state) :
  snd (configure_slim_command_line env st) = st.
Proof.
  unfold configure_slim_command_line, bind, getitem, iter_keys.
  destruct (dict_get "source" (args_dict st)) as [source|]; [|reflexivity].
  pose proof (configure_args_state (dict_keys (args_dict st)) "slim " st) as Hst.
  destruct (configure_args env (dict_keys (args_dict st)) "slim " st)
    as [[clargs|e] st'] eqn:Hloop; simpl in Hst; subst st'.
  - destruct source; reflexivity.
  - reflexivity.
Qed.

(** C5: the builder has no side effect: whatever the mapping, and whether it
    returns or raises, the state after the call (the mapping, same keys and
    same values, and the record of what was printed and launched) is the
    state before it. *)
Theorem configure_slim_command_line_pure (st : state) :
  snd (configure_slim_command_line env st) = st
  /\ args_dict (snd (configure_slim_command_line env st)) = args_dict st.
Proof.
  split; [|f_equal]; apply configure_slim_command_line_state.
Qed.

End Builder.

(** C4, as stated, fails: a source path with a blank in it is cut in two. *)
Lemma builder_shape_fails_on_blank :
  ~ builder_shape (stub_environment "")
      [("source", PStr "my model.slim")] "my model.slim".
Proof.
  intros (tokens & Hrun & Hlen & _).
  vm_compute in Hrun. inversion Hrun; subst. discriminate Hlen.
Qed.

Lemma configure_slim_command_line_tokens_witness :
  let env := stub_environment "" in
  let st := with_args [("source", PStr "m.slim");
                       ("CAPACITY", PInt 50000000);
                       ("HOMING", PBool true)] in
  exists tokens,
    configure_slim_command_line env st = (Return tokens, st)
    /\ tokens = "slim" :: flat_map (parameter_tokens env)
                            (parameters (args_dict st)) ++ ["m.slim"]
    /\ List.length tokens = 1 + 2 * List.length (parameters (args_dict st)) + 1
    /\ hd_error tokens = Some "slim"
    /\ last_error tokens = Some "m.slim"
    /\ (forall k b, In (k, PBool b) (parameters (args_dict st)) ->
          In (k ++ "=" ++ (if b then "T" else "F"))%string tokens).
Proof.
  intros env st. apply configure_slim_command_line_tokens.
  - repeat constructor; simpl; intuition discriminate.
  - reflexivity.
  - discriminate.
  - reflexivity.
  - intros k v Hin. simpl in Hin.
    destruct Hin as [Hin|[Hin|[]]]; inversion Hin; subst; split; reflexivity.
Defined.

(** ** The monad *)

Lemma bind_returns {A B : Type} (m : M A) (f : A -> M B)
  (st st' : state) (b : B) :
  bind m f st = (Return b, st') ->
  exists a st1, m st = (Return a, st1) /\ f a st1 = (Return b, st').
Proof.
  unfold bind. destruct (m st) as [[a|e] st1]; intros Hrun.
  - exists a, st1. split; [reflexivity | assumption].
  - discriminate.
Qed.

Lemma py_float_returns (env : environment) (s : string) (st st' : state)
  (x : float) :
  py_float env s st = (Return x, st') ->
  float_of_str env s = Some x /\ st' = st.
Proof.
  unfold py_float. destruct (float_of_str env s) as [y|]; intros Hrun;
    inversion Hrun; subst; auto.
Qed.

(** ** The aggregator *)

Section Aggregator.

Variable env : environment.

(** The builder does not look at what was printed or launched. *)
Lemma configure_args_trace (keys : list string) :
  forall clargs st,
    fst (configure_args env keys clargs st)
    = fst (configure_args env keys clargs (with_args (args_dict st))).
Proof.
  induction keys as [|arg rest IH]; intros clargs st; simpl.
  - reflexivity.
  - destruct (String.eqb arg "source"); [apply IH|].
    unfold bind, getitem.
    change (args_dict (with_args (args_dict st))) with (args_dict st).
    destruct (dict_get arg (args_dict st)) as [v|]; [|reflexivity].
    rewrite IH. reflexivity.
Qed.

Lemma configure_slim_command_line_eval (st : state) :
  configure_slim_command_line env st
  = (fst (configure_slim_command_line env (with_args (args_dict st))), st).
Proof.
  rewrite (surjective_pairing (configure_slim_command_line env st)).
  rewrite configure_slim_command_line_state. f_equal.
  unfold configure_slim_command_line, bind, getitem, iter_keys.
  change (args_dict (with_args (args_dict st))) with (args_dict st).
  destruct (dict_get "source" (args_dict st)) as [source|]; [|reflexivity].
  cbn beta iota.
  change (args_dict (with_args (args_dict st))) with (args_dict st).
  pose proof (configure_args_trace (dict_keys (args_dict st)) "slim " st)
    as Hsame.
  destruct (configure_args env (dict_keys (args_dict st)) "slim " st)
    as [[clargs|e] st1];
  destruct (configure_args env (dict_keys (args_dict st)) "slim "
              (with_args (args_dict st))) as [[clargs'|e'] st2];
  simpl in Hsame; try discriminate; inversion Hsame; subst;
  [destruct source|]; reflexivity.
Qed.

Lemma configure_slim_command_line_returns (st st' : state)
  (tokens : list string) :
  configure_slim_command_line env st = (Return tokens, st') ->
  st' = st /\ command_line env (args_dict st) = tokens.
Proof.
  rewrite configure_slim_command_line_eval. intros Hrun.
  injection Hrun as Hfst Hst. split; [now symmetry|].
  unfold command_line. now rewrite Hfst.
Qed.

(** Every key the loop meets is in the dictionary. *)
Lemma dict_get_key (d : dict) (k : string) :
  In k (dict_keys d) -> dict_get k d <> None.
Proof.
  induction d as [|[k0 v0] d IH]; simpl; intros Hin.
  - contradiction.
  - destruct (String.eqb_spec k0 k) as [->|Hne]; [discriminate|].
    destruct Hin as [Heq|Hin]; [congruence | now apply IH].
Qed.

Lemma configure_args_total (st : state) (keys : list string) :
  forall clargs,
    (forall k, In k keys -> dict_get k (args_dict st) <> None) ->
    exists text, configure_args env keys clargs st = (Return text, st).
Proof.
  induction keys as [|arg rest IH]; intros clargs Hkeys; simpl.
  - now exists clargs.
  - assert (Hrest : forall k, In k rest -> dict_get k (args_dict st) <> None)
      by (intros; apply Hkeys; now right).
    destruct (String.eqb arg "source"); [now apply IH|].
    unfold bind, getitem.
    destruct (dict_get arg (args_dict st)) as [v|] eqn:Hget.
    + now apply IH.
    + exfalso. apply (Hkeys arg); [now left | assumption].
Qed.

(** The builder returns as soon as the "source" entry is a string. *)
Lemma configure_slim_command_line_total (st : state) (path : string) :
  dict_get "source" (args_dict st) = Some (PStr path) ->
  configure_slim_command_line env st
  = (Return (command_line env (args_dict st)), st).
Proof.
  intros Hsrc.
  assert (Hret : exists tokens,
             configure_slim_command_line env st = (Return tokens, st)).
  { unfold configure_slim_command_line, bind, getitem, iter_keys.
    rewrite Hsrc.
    destruct (configure_args_total st (dict_keys (args_dict st)) "slim "
                (dict_get_key (args_dict st))) as [text ->].
    eexists. reflexivity. }
  destruct Hret as [tokens Hrun].
  destruct (configure_slim_command_line_returns _ _ _ Hrun) as [_ <-].
  assumption.
Qed.

Lemma bind_eval {A B : Type} (m : M A) (f : A -> M B) (st st1 : state)
  (a : A) :
  m st = (Return a, st1) -> bind m f st = f a st1.
Proof. intros Hm. unfold bind. now rewrite Hm. Qed.

(** *** The inner loop *)

(** A completed inner loop: the dictionary is as before, every repetition
    printed its progress line and launched the simulator once, and one value
    was appended per repetition. *)
Lemma repetitions_returns (num_grnas : Z) (runs : list Z) :
  forall acc st res st',
    repetitions env num_grnas runs acc st = (Return res, st') ->
    args_dict st' = args_dict st
    /\ trace st'
       = trace st ++ flat_map (run_events env (args_dict st) num_grnas) runs
    /\ exists xs,
         res = acc ++ xs
         /\ List.length xs = List.length runs
         /\ Forall (sampled env) xs.
Proof.
  induction runs as [|i rest IH]; intros acc st res st' Hrun;
    cbn [repetitions] in Hrun.
  - unfold ret in Hrun. injection Hrun as <- <-.
    split; [reflexivity|]. split; [cbn; now rewrite app_nil_r|].
    exists []. rewrite app_nil_r. auto.
  - apply bind_returns in Hrun as (u & st1 & Hprint & Hrun).
    unfold print in Hprint. injection Hprint as _ <-.
    apply bind_returns in Hrun as (clargs & st2 & Hcfg & Hrun).
    apply configure_slim_command_line_returns in Hcfg as [-> Hcl].
    cbn [args_dict] in Hcl.
    apply bind_returns in Hrun as (out & st3 & Hslim & Hrun).
    unfold run_slim in Hslim. cbn [args_dict trace] in Hslim.
    injection Hslim as Hout <-.
    apply bind_returns in Hrun as (parsed & st4 & Hparse & Hrun).
    unfold lift in Hparse. injection Hparse as Hparse <-.
    apply bind_returns in Hrun as (x & st5 & Hfloat & Hrun).
    apply py_float_returns in Hfloat as [Hfloat ->].
    apply IH in Hrun as (Hargs & Htrace & xs & -> & Hlen & Hxs).
    cbn [args_dict trace] in Hargs, Htrace.
    split; [assumption|]. split.
    + rewrite Htrace. cbn [flat_map]. unfold run_events at 2. rewrite Hcl.
      rewrite <- !app_assoc. reflexivity.
    + exists (drive_conversion_of x :: xs).
      split; [now rewrite <- app_assoc|].
      split; [cbn; now rewrite Hlen|].
      constructor; [|assumption].
      subst out. now exists (trace st ++ [Print (run_message i num_grnas)]),
                            clargs, parsed, x.
Qed.

(** With a string for "source" and a simulator whose outputs parse, the inner
    loop runs to its end. *)
Lemma repetitions_total (num_grnas : Z) (runs : list Z) :
  parsable env ->
  forall acc st path,
    dict_get "source" (args_dict st) = Some (PStr path) ->
    exists res st', repetitions env num_grnas runs acc st = (Return res, st').
Proof.
  intros Hparsable.
  induction runs as [|i rest IH]; intros acc st path Hsrc;
    cbn [repetitions].
  - now exists acc, st.
  - erewrite bind_eval by reflexivity.
    erewrite bind_eval
      by (apply configure_slim_command_line_total with (path := path);
          exact Hsrc).
    erewrite bind_eval by reflexivity.
    match goal with
    | |- context [parse_slim (slim_output env ?h ?c)] =>
        destruct (Hparsable h c) as (rate & x & Hparse & Hfloat)
    end.
    erewrite bind_eval by (unfold lift; rewrite Hparse; reflexivity).
    erewrite bind_eval by (unfold py_float; rewrite Hfloat; reflexivity).
    apply IH with (path := path). exact Hsrc.
Qed.

(** *** The outer loop *)

Lemma sweep_events_set (d : dict) (n m : Z) :
  sweep_events env (dict_set "NUM_GRNAS" (PInt n) d) m = sweep_events env d m.
Proof. unfold sweep_events. now rewrite dict_set_set. Qed.

(** A completed sweep: the sweep key holds the last point, every point showed
    its progress line and its repetitions in order, and one average was
    appended per point, in the order of the points. *)
Lemma sweep_returns (points : list Z) :
  forall acc st res st',
    sweep env points acc st = (Return res, st') ->
    args_dict st'
    = match last_error points with
      | Some n => dict_set "NUM_GRNAS" (PInt n) (args_dict st)
      | None => args_dict st
      end
    /\ trace st'
       = trace st ++ flat_map (sweep_events env (args_dict st)) points
    /\ exists means,
         res = acc ++ means /\ Forall2 (point_result env) points means.
Proof.
  induction points as [|n rest IH]; intros acc st res st' Hrun;
    cbn [sweep] in Hrun.
  - unfold ret in Hrun. injection Hrun as <- <-.
    split; [reflexivity|]. split; [cbn; now rewrite app_nil_r|].
    exists []. rewrite app_nil_r. split; [reflexivity | constructor].
  - apply bind_returns in Hrun as (u & st1 & Hset & Hrun).
    unfold setitem in Hset. injection Hset as _ <-.
    apply bind_returns in Hrun as (u' & st2 & Hprint & Hrun).
    unfold print in Hprint. cbn [args_dict trace] in Hprint.
    injection Hprint as _ <-.
    apply bind_returns in Hrun as (dcs & st3 & Hreps & Hrun).
    pose proof Hreps as Hreps'.
    apply repetitions_returns in Hreps' as (Hargs & Htrace & xs & Hdcs & Hlen & _).
    cbn [args_dict trace app] in Hargs, Htrace, Hdcs. subst dcs.
    apply IH in Hrun as (Hargs' & Htrace' & means & -> & Hmeans).
    rewrite Hargs in Hargs', Htrace'. rewrite Htrace in Htrace'.
    split; [|split].
    + rewrite Hargs', last_error_cons.
      destruct (last_error rest); [apply dict_set_set | reflexivity].
    + rewrite Htrace'. cbn [flat_map]. unfold sweep_events at 2.
      rewrite <- !app_assoc. cbn [app]. do 3 f_equal.
      apply flat_map_ext. intros m. apply sweep_events_set.
    + exists (calculate_average xs :: means).
      split; [now rewrite <- app_assoc|].
      constructor; [|assumption].
      eexists _, st3, xs. split; [|split; [exact Hreps|split]].
      * cbn [args_dict]. apply dict_get_set_same.
      * exact Hlen.
      * reflexivity.
Qed.

Lemma sweep_total (points : list Z) :
  parsable env ->
  forall acc st path,
    dict_get "source" (args_dict st) = Some (PStr path) ->
    exists res st', sweep env points acc st = (Return res, st').
Proof.
  intros Hparsable.
  induction points as [|n rest IH]; intros acc st path Hsrc; cbn [sweep].
  - now exists acc, st.
  - erewrite bind_eval by reflexivity.
    erewrite bind_eval by reflexivity.
    match goal with
    | |- context [bind (repetitions env n ?runs ?a) _ ?s] =>
        destruct (repetitions_total n runs Hparsable a s path)
          as (dcs & st3 & Hreps)
    end.
    { cbn [args_dict]. rewrite dict_get_set_other by discriminate.
      exact Hsrc. }
    rewrite (bind_eval _ _ _ _ _ Hreps).
    apply IH with (path := path).
    apply repetitions_returns in Hreps as (Hargs & _).
    rewrite Hargs. cbn [args_dict].
    rewrite dict_get_set_other by discriminate. exact Hsrc.
Qed.

(** *** Constant samples *)

Lemma Forall_eq_repeat {A : Type} (a : A) (l : list A) :
  Forall (eq a) l -> l = repeat a (List.length l).
Proof.
  induction 1 as [|y l Hy _ IH]; cbn; [reflexivity|].
  now rewrite <- Hy, <- IH.
Qed.

Lemma Forall2_constant {A B : Type} (P : A -> B -> Prop) (b : B)
  (l : list A) (l' : list B) :
  (forall a b', P a b' -> b' = b) ->
  Forall2 P l l' -> l' = repeat b (List.length l).
Proof.
  intros Hconst. induction 1 as [|a b' l l' Hab _ IH]; cbn; [reflexivity|].
  now rewrite (Hconst _ _ Hab), <- IH.
Qed.

Lemma Forall2_length_eq {A B : Type} (P : A -> B -> Prop)
  (l : list A) (l' : list B) :
  Forall2 P l l' -> List.length l' = List.length l.
Proof. induction 1; cbn; congruence. Qed.

(** When every output yields the same field, a sweep point's average is the
    average of 20 copies of its transform. *)
Lemma point_result_constant (rate : string) (x : float) (n : Z) (mean : pyval) :
  (forall history command_line_args,
      parse_slim (slim_output env history command_line_args) = Return rate) ->
  float_of_str env rate = Some x ->
  point_result env n mean ->
  mean = calculate_average (repeat (drive_conversion_of x) 20).
Proof.
  intros Hstub Hx (st & st' & dcs & _ & Hreps & Hlen & ->).
  apply repetitions_returns in Hreps as (_ & _ & xs & Hdcs & _ & Hxs).
  cbn [app] in Hdcs. subst xs. f_equal.
  rewrite <- Hlen. apply Forall_eq_repeat.
  apply Forall_impl with (2 := Hxs).
  intros y (history & clargs & rate' & x' & Hparse & Hfloat & ->).
  rewrite Hstub in Hparse. injection Hparse as <-.
  rewrite Hx in Hfloat. injection Hfloat as <-. reflexivity.
Qed.

(** *** The claims on the aggregator *)

(** C6: the transform [(value - 0.5) / 0.5] of the aggregator maps 0.5 to
    0.0 and 1.0 to 1.0, exactly, in binary64 arithmetic. *)
Theorem drive_conversion_of_endpoints :
  drive_conversion_of 0.5 = 0%float /\ drive_conversion_of 1 = 1%float.
Proof. split; reflexivity. Qed.


(** C8, amended: when every repetition yields the same field, of float value
    [x], the aggregator returns 12 identical means, each the binary64 average
    (sum from the left, divided by 20) of 20 copies of [(x - 0.5) / 0.5]. *)
Theorem collect_data_constant (st : state) (path rate : string) (x : float) :
  dict_get "source" (args_dict st) = Some (PStr path) ->
  (forall history command_line_args,
      parse_slim (slim_output env history command_line_args) = Return rate) ->
  float_of_str env rate = Some x ->
  exists st',
    collect_data env st
    = (Return (repeat (calculate_average (repeat (drive_conversion_of x) 20))
                      12), st')
    /\ calculate_average (repeat (drive_conversion_of x) 20)
       = PFloat (py_sum (repeat (drive_conversion_of x) 20) / 20)%float.
Proof.
  intros Hsrc Hstub Hx.
  assert (Hparsable : parsable env)
    by (intros history clargs; exists rate, x; auto).
  destruct (sweep_total (range 1 13) Hparsable [] st path Hsrc)
    as (res & st' & Hrun).
  exists st'. split; [|reflexivity].
  unfold collect_data. rewrite Hrun. f_equal. f_equal.
  apply sweep_returns in Hrun as (_ & _ & means & -> & Hmeans).
  cbn [app].
  change 12 with (List.length (range 1 13)).
  apply Forall2_constant with (2 := Hmeans).
  intros n mean. now apply point_result_constant with (rate := rate).
Qed.

(** C9: on a non-empty list of floats the average is the sum of the elements,
    added from the left starting at 0, divided by their count as a float (so
    0.75 for 0.5 and 1.0, 2.5 for 1, 2, 3, 4, and 1.0 for up to 20 copies of
    1.0); on the empty list it is the integer 0; and the list the aggregator
    averages, the outcome of a completed inner loop, has 20 elements, so that
    the empty branch is not taken there. *)
Theorem calculate_average_mean :
  (forall nums,
      nums <> [] ->
      calculate_average nums
      = PFloat (fold_left PrimFloat.add nums 0
                / PrimFloat.of_uint63
                    (Uint63.of_Z (Z.of_nat (List.length nums))))%float)
  /\ calculate_average [0.5; 1]%float = PFloat 0.75
  /\ calculate_average [1; 2; 3; 4]%float = PFloat 2.5
  /\ (forall n, 1 <= n <= 20 ->
        calculate_average (repeat 1%float n) = PFloat 1)
  /\ calculate_average [] = PInt 0
  /\ (forall num_grnas st drive_conversions st',
        repetitions env num_grnas (range 0 total_runs) [] st
        = (Return drive_conversions, st') ->
        List.length drive_conversions = 20
        /\ calculate_average drive_conversions
           = PFloat (fold_left PrimFloat.add drive_conversions 0 / 20)%float).
Proof.
  split; [|split; [|split; [|split; [|split]]]].
  - intros [|x nums] Hne; [congruence | reflexivity].
  - reflexivity.
  - reflexivity.
  - intros n [Hlow Hhigh].
    do 21 (destruct n as [|n]; [first [lia | reflexivity]|]). lia.
  - reflexivity.
  - intros n st dcs st' Hreps.
    apply repetitions_returns in Hreps as (_ & _ & xs & -> & Hlen & _).
    cbn [app]. change (List.length (range 0 total_runs)) with 20 in Hlen.
    split; [assumption|].
    unfold calculate_average. rewrite Hlen. reflexivity.
Qed.

(** C10: after the aggregator has returned, the mapping is the one it was
    given with the key "NUM_GRNAS" set to 12: that key holds 12 and every
    other key holds what it held before. *)
Theorem collect_data_frame (st st' : state) (res : list pyval) :
  collect_data env st = (Return res, st') ->
  args_dict st' = dict_set "NUM_GRNAS" (PInt 12) (args_dict st)
  /\ dict_get "NUM_GRNAS" (args_dict st') = Some (PInt 12)
  /\ (forall k, k <> "NUM_GRNAS" ->
        dict_get k (args_dict st') = dict_get k (args_dict st)).
Proof.
  intros Hrun. unfold collect_data in Hrun.
  apply sweep_returns in Hrun as (Hargs & _).
  change (last_error (range 1 13)) with (Some 12%Z) in Hargs.
  rewrite Hargs. split; [reflexivity|]. split.
  - apply dict_get_set_same.
  - intros k Hk. now apply dict_get_set_other.
Qed.

End Aggregator.

(** ** The claims at concrete runs *)


(** C8, as stated, fails: with the field 1e307 at every repetition the
    transform is 2e307, the sum of 20 of them overflows, and the 12 means are
    infinite. *)
Lemma constant_sweep_claim_fails_on_overflow :
  ~ constant_sweep_claim overflow_environment sample_state.
Proof.
  intros Hclaim.
  specialize (Hclaim "1e307" 0x1.c7b1f3cac7433p+1019%float
                     (fun _ _ => eq_refl) eq_refl).
  apply (f_equal (fun o => match o with
                           | Return (PFloat mean :: _) =>
                               PrimFloat.is_infinity mean
                           | _ => false
                           end)) in Hclaim.
  vm_compute in Hclaim. discriminate.
Qed.

Lemma collect_data_constant_witness :
  exists st',
    collect_data unit_environment sample_state
    = (Return (repeat (calculate_average (repeat (drive_conversion_of 1) 20))
                      12), st')
    /\ calculate_average (repeat (drive_conversion_of 1) 20)
       = PFloat (py_sum (repeat (drive_conversion_of 1) 20) / 20)%float.
Proof.
  apply (collect_data_constant unit_environment sample_state "m.slim" "1.0").
  - reflexivity.
  - intros history clargs. reflexivity.
  - reflexivity.
Defined.

(** For the rates 0.5 and 1.0 the average of 20 copies of the transform is
    the transform itself. *)
Example calculate_average_exact :
  calculate_average (repeat (drive_conversion_of 0.5) 20) = PFloat 0
  /\ calculate_average (repeat (drive_conversion_of 1) 20) = PFloat 1.
Proof. split; reflexivity. Qed.

Lemma calculate_average_mean_witness :
  calculate_average [0.5; 1]%float
  = PFloat (fold_left PrimFloat.add [0.5; 1] 0
            / PrimFloat.of_uint63 (Uint63.of_Z (Z.of_nat 2)))%float
  /\ calculate_average [0.5; 1]%float = PFloat 0.75
  /\ calculate_average (repeat 1%float 7) = PFloat 1
  /\ List.length (repeat 1%float 20) = 20
  /\ calculate_average (repeat 1%float 20)
     = PFloat (fold_left PrimFloat.add (repeat 1%float 20) 0 / 20)%float.
Proof.
  destruct (calculate_average_mean unit_environment)
    as (Hmean & Hpair & _ & Hones & _ & Hloop).
  split; [|split; [|split]].
  - apply (Hmean [0.5; 1]%float). discriminate.
  - exact Hpair.
  - apply (Hones 7). lia.
  - apply (Hloop 1%Z sample_state (repeat 1%float 20)
             (snd (repetitions unit_environment 1 (range 0 total_runs) []
                               sample_state))).
    vm_compute. reflexivity.
Defined.


Lemma collect_data_frame_witness :
  let st' := snd (collect_data unit_environment sample_state) in
  args_dict st' = dict_set "NUM_GRNAS" (PInt 12) (args_dict sample_state)
  /\ dict_get "NUM_GRNAS" (args_dict st') = Some (PInt 12)
  /\ (forall k, k <> "NUM_GRNAS" ->
        dict_get k (args_dict st') = dict_get k (args_dict sample_state)).
Proof.
  intros st'.
  apply (collect_data_frame unit_environment sample_state st'
           (repeat (PFloat 1) 12)).
  subst st'. vm_compute. reflexivity.
Defined.

(** * Further properties *)

(** ** Splitting *)

Lemma split_on_nonempty (sep : ascii) (s : string) :
  PyStr.split_on sep s <> [].
Proof.
  destruct s as [|c s]; simpl; [discriminate|].
  destruct (Ascii.eqb c sep); [discriminate|].
  destruct (PyStr.split_on sep s); discriminate.
Qed.

(** X8: [s.split(sep)] loses nothing: no piece contains the separator, and
    joining the pieces with the separator gives the text back. *)
Theorem split_on_join (sep : ascii) (s : string) :
  Forall (fun piece => occurs sep piece = false) (PyStr.split_on sep s)
  /\ str_join (String sep "") (PyStr.split_on sep s) = s.
Proof.
  induction s as [|c s [IHpieces IHjoin]]; cbn [PyStr.split_on].
  - split; [repeat constructor | reflexivity].
  - pose proof (split_on_nonempty sep s) as Hne.
    destruct (Ascii.eqb c sep) eqn:Hc.
    + apply Ascii.eqb_eq in Hc. subst c. split.
      * constructor; [reflexivity | assumption].
      * cbn [str_join]. destruct (PyStr.split_on sep s) as [|p ps];
          [congruence|]. rewrite IHjoin. reflexivity.
    + destruct (PyStr.split_on sep s) as [|p ps]; [congruence|].
      apply Forall_cons_iff in IHpieces as [Hp Hps]. split.
      * constructor; [|assumption]. cbn [occurs]. now rewrite Hc, Hp.
      * rewrite <- IHjoin. destruct ps; reflexivity.
Qed.

Lemma split_on_append (sep : ascii) (s t : string) :
  PyStr.split_on sep (s ++ String sep t)
  = PyStr.split_on sep s ++ PyStr.split_on sep t.
Proof.
  induction s as [|c s IH]; cbn [append PyStr.split_on app].
  - now rewrite Ascii.eqb_refl.
  - rewrite IH. pose proof (split_on_nonempty sep s) as Hne.
    destruct (Ascii.eqb c sep); [reflexivity|].
    destruct (PyStr.split_on sep s); [congruence | reflexivity].
Qed.

Lemma split_from_tokens (s : string) :
  forall word,
    PyStr.spaceless word = true ->
    Forall is_token (PyStr.split_from word s).
Proof.
  assert (Hflush : forall word, PyStr.spaceless word = true ->
                                Forall is_token (PyStr.flush word)).
  { intros [|c w] Hw; constructor; [|constructor].
    split; [discriminate | assumption]. }
  induction s as [|c s IH]; intros word Hword; cbn [PyStr.split_from].
  - now apply Hflush.
  - destruct (PyStr.isspace c) eqn:Hc.
    + apply Forall_app. split; [now apply Hflush | now apply IH].
    + apply IH. rewrite spaceless_append, Hword. cbn. now rewrite Hc.
Qed.

(** X7: every token of [s.split()] is non-empty and free of whitespace. *)
Theorem split_tokens (s : string) : Forall is_token (PyStr.split s).
Proof. now apply split_from_tokens. Qed.

(** ** More on the output parser *)

(** Lines without the marker play no part. *)
Lemma parse_lines_filter (lines : list string) :
  forall dr_rate,
    parse_lines lines dr_rate
    = parse_lines (filter (PyStr.startswith marker) lines) dr_rate.
Proof.
  induction lines as [|line rest IH]; intros dr_rate;
    cbn [filter parse_lines]; [reflexivity|].
  destruct (PyStr.startswith marker line) eqn:Hm.
  - cbn [parse_lines]. rewrite Hm.
    destruct (nth_error (PyStr.split line) 7); [apply IH | reflexivity].
  - apply IH.
Qed.

(** X4: the parser sees a text only through its marker lines: two texts
    with the same marker lines, in the same order, give the same outcome. *)
Theorem parse_slim_marker_lines_only (s1 s2 : string) :
  marker_lines s1 = marker_lines s2 -> parse_slim s1 = parse_slim s2.
Proof.
  intros Hsame. unfold parse_slim.
  rewrite (parse_lines_filter (PyStr.split_on PyStr.newline s1)).
  rewrite (parse_lines_filter (PyStr.split_on PyStr.newline s2)).
  unfold marker_lines in Hsame. now rewrite Hsame.
Qed.

Lemma parse_slim_marker_lines_only_witness :
  parse_slim ("SLiM 4" ++ nl ++ "PYTHON:: 1 2 3 4 5 6 0.5" ++ nl ++ "done")
  = parse_slim ("PYTHON:: 1 2 3 4 5 6 0.5").
Proof. apply parse_slim_marker_lines_only. reflexivity. Defined.

Lemma last_error_in {A : Type} (l : list A) (x : A) :
  last_error l = Some x -> In x l.
Proof.
  induction l as [|a l IH]; cbn [last_error]; [discriminate|].
  destruct (last_error l) as [y|]; intros Hx; injection Hx as <-.
  - right. now apply IH.
  - now left.
Qed.

Lemma last_error_none {A : Type} (l : list A) :
  last_error l = None -> l = [].
Proof.
  destruct l as [|a l]; [reflexivity|].
  rewrite last_error_cons. discriminate.
Qed.

Lemma eighth_token_dec (line : string) :
  {eighth_token line <> None} + {~ eighth_token line <> None}.
Proof.
  destruct (eighth_token line);
    [left; discriminate | right; intros H; now apply H].
Qed.

(** The three ways a scan can end. *)
Lemma parse_slim_cases (s : string) :
  (marker_lines s = []
   /\ parse_slim s = Raise (UnboundLocalError "dr_rate"))
  \/ (Exists (fun line => eighth_token line = None) (marker_lines s)
      /\ parse_slim s = Raise IndexError)
  \/ (Forall (fun line => eighth_token line <> None) (marker_lines s)
      /\ exists line rate,
           last_error (marker_lines s) = Some line
           /\ eighth_token line = Some rate
           /\ parse_slim s = Return rate).
Proof.
  destruct (Forall_Exists_dec (fun line => eighth_token line <> None)
              eighth_token_dec (marker_lines s)) as [Hlong|Hshort].
  - destruct (last_error (marker_lines s)) as [line|] eqn:Hlast.
    + right. right. split; [assumption|].
      pose proof (last_error_in _ _ Hlast) as Hin.
      rewrite Forall_forall in Hlong. pose proof (Hlong line Hin) as Hline.
      destruct (eighth_token line) as [rate|] eqn:Hrate; [|congruence].
      exists line, rate. split; [reflexivity|]. split; [assumption|].
      unfold parse_slim. rewrite parse_lines_spec.
      * unfold marker_lines in Hlast. now rewrite Hlast, Hrate.
      * apply Forall_forall. exact Hlong.
    + left. apply last_error_none in Hlast.
      split; [assumption | now apply parse_slim_no_marker].
  - right. left.
    assert (Hex : Exists (fun line => eighth_token line = None)
                         (marker_lines s)).
    { apply Exists_exists. apply Exists_exists in Hshort as (l & Hin & Hl).
      exists l. split; [assumption|].
      destruct (eighth_token l); [exfalso; apply Hl; discriminate|reflexivity]. }
    split; [assumption|]. unfold parse_slim. now apply parse_lines_short.
Qed.

(** X1: the parser fails with the unbound-variable fault exactly on the texts
    without a marker line. *)
Theorem parse_slim_unbound_iff (s : string) :
  parse_slim s = Raise (UnboundLocalError "dr_rate") <-> marker_lines s = [].
Proof.
  split; [|apply parse_slim_no_marker].
  intros Hraise.
  destruct (parse_slim_cases s)
    as [[Hnone _]|[[_ Hidx]|(_ & line & rate & _ & _ & Hret)]];
    [assumption | congruence | congruence].
Qed.

(** X2: the parser fails with IndexError exactly on the texts in which some
    marker line, whether the last one or not, has fewer than 8 tokens. *)
Theorem parse_slim_index_error_iff (s : string) :
  parse_slim s = Raise IndexError
  <-> Exists (fun line => eighth_token line = None) (marker_lines s).
Proof.
  split.
  - intros Hraise.
    destruct (parse_slim_cases s)
      as [[_ Hunb]|[[Hshort _]|(_ & line & rate & _ & _ & Hret)]];
      [congruence | assumption | congruence].
  - intros Hshort. unfold parse_slim. now apply parse_lines_short.
Qed.

(** X3: the parser returns [rate] exactly when the text has a marker line,
    every marker line has at least 8 tokens, and [rate] is the 8th token of
    the last marker line; and it raises nothing but the unbound-variable
    fault and IndexError. *)
Theorem parse_slim_returns_iff (s : string) :
  (forall rate,
      parse_slim s = Return rate
      <-> Forall (fun line => eighth_token line <> None) (marker_lines s)
          /\ exists line, last_error (marker_lines s) = Some line
                          /\ eighth_token line = Some rate)
  /\ (forall e,
        parse_slim s = Raise e ->
        e = UnboundLocalError "dr_rate" \/ e = IndexError).
Proof.
  split.
  - intros rate. split.
    + intros Hret.
      destruct (parse_slim_cases s)
        as [[_ Hunb]|[[_ Hidx]|(Hlong & line & rate' & Hlast & Hrate & Hret')]];
        [congruence | congruence |].
      split; [assumption|]. exists line. split; [assumption|]. congruence.
    + intros (Hlong & line & Hlast & Hrate).
      unfold parse_slim. rewrite parse_lines_spec by exact Hlong.
      unfold marker_lines in Hlast. now rewrite Hlast, Hrate.
  - intros e Hraise.
    destruct (parse_slim_cases s)
      as [[_ Hunb]|[[_ Hidx]|(_ & line & rate & _ & _ & Hret)]];
      [left | right | ]; congruence.
Qed.

(** X5: what the parser returns is a token: never empty, never with
    whitespace in it. *)
Theorem parse_slim_returns_token (s rate : string) :
  parse_slim s = Return rate -> is_token rate.
Proof.
  intros Hret.
  destruct (parse_slim_cases s)
    as [[_ Hunb]|[[_ Hidx]|(_ & line & rate' & _ & Hrate & Hret')]];
    [congruence | congruence |].
  assert (rate' = rate) by congruence. subst rate'.
  unfold eighth_token in Hrate. apply nth_error_In in Hrate.
  pose proof (split_from_tokens line "" eq_refl) as Htokens.
  rewrite Forall_forall in Htokens. now apply Htokens.
Qed.

Lemma parse_slim_returns_token_witness :
  is_token "0.73".
Proof.
  apply (parse_slim_returns_token "PYTHON:: a b c d e f 0.73 h").
  reflexivity.
Defined.

(** The scan of a list of lines in two parts. *)
Lemma parse_lines_app (l1 l2 : list string) :
  forall dr_rate,
    parse_lines (l1 ++ l2) dr_rate
    = match parse_lines l1 dr_rate with
      | Return rate => parse_lines l2 (Some rate)
      | Raise IndexError => Raise IndexError
      | Raise _ => parse_lines l2 None
      end.
Proof.
  induction l1 as [|line rest IH]; intros dr_rate; cbn [app parse_lines].
  - destruct dr_rate; reflexivity.
  - destruct (PyStr.startswith marker line); [|apply IH].
    destruct (nth_error (PyStr.split line) 7); [apply IH | reflexivity].
Qed.

(** A scan that starts with a bound [dr_rate] falls back on it. *)
Lemma parse_lines_bound (lines : list string) (rate : string) :
  parse_lines lines (Some rate)
  = match parse_lines lines None with
    | Raise (UnboundLocalError _) => Return rate
    | o => o
    end.
Proof.
  revert rate. induction lines as [|line rest IH]; intros rate;
    cbn [parse_lines]; [reflexivity|].
  destruct (PyStr.startswith marker line); [|apply IH].
  destruct (nth_error (PyStr.split line) 7) as [tok|]; [|reflexivity].
  rewrite (IH tok).
  destruct (parse_lines rest None) as [r|[]] eqn:Hrest;
    rewrite ?(IH tok); try reflexivity.
Qed.

(** X6: the outcome on two texts put one after the other, a newline in
    between: a short marker line in the first text fails the whole; otherwise
    the second text decides, unless it has no marker line, in which case the
    first one does. *)
Theorem parse_slim_append (s t : string) :
  parse_slim (s ++ nl ++ t)
  = match parse_slim s with
    | Raise IndexError => Raise IndexError
    | Raise _ => parse_slim t
    | Return rate =>
        match parse_slim t with
        | Raise (UnboundLocalError _) => Return rate
        | o => o
        end
    end.
Proof.
  unfold parse_slim, nl. cbn [append].
  rewrite split_on_append, parse_lines_app.
  destruct (parse_lines (PyStr.split_on PyStr.newline s) None) as [rate|e].
  - apply parse_lines_bound.
  - destruct e; reflexivity.
Qed.

(** ** More on the command builder *)

Lemma string_of_uint_spaceless (d : Decimal.uint) :
  PyStr.spaceless (NilEmpty.string_of_uint d) = true.
Proof. induction d; cbn; assumption || reflexivity. Qed.

Lemma of_int_token (n : Z) : is_token (PyStr.of_int n).
Proof.
  unfold PyStr.of_int, NilZero.string_of_int, NilZero.string_of_uint.
  destruct (Z.to_int n) as [d|d]; split.
  - destruct d; discriminate.
  - destruct d; try reflexivity; cbn; apply string_of_uint_spaceless.
  - discriminate.
  - destruct d; try reflexivity; cbn; apply string_of_uint_spaceless.
Qed.

Lemma NoDup_snoc {A : Type} (l : list A) (a : A) :
  NoDup l -> ~ In a l -> NoDup (l ++ [a]).
Proof.
  induction 1 as [|x l Hx Hl IH]; intros Ha; cbn [app].
  - constructor; [intros [] | constructor].
  - constructor.
    + intros Hin. apply in_app_or in Hin as [Hin|[<-|[]]];
        [now apply Hx | apply Ha; now left].
    + apply IH. intros Hin. apply Ha. now right.
Qed.

Section BuilderOutcomes.

Variable env : environment.

(** X11: a boolean, or an integer within the digit limit of the interpreter,
    is rendered as one token ("T" or "F", or the decimal digits with a sign),
    so that whitespace in a command line can only come from a name, a string
    or the text of a float. *)
Theorem render_value_token (v : pyval) :
  (exists b, v = PBool b) \/ (exists n, v = PInt n) ->
  renderable v ->
  is_token (render_value env v).
Proof.
  intros [[b ->]|[n ->]] _; cbn [render_value format_value].
  - destruct b; split; (discriminate || reflexivity).
  - apply of_int_token.
Qed.

(** X9: how the builder ends, for every mapping whose values the interpreter
    can turn into text: KeyError on "source" when the key is missing,
    TypeError when its value is not a string, and otherwise a return; in no
    case is the state changed, and the loop's own lookups never fail. *)
Theorem configure_slim_command_line_outcome (st : state) :
  (forall k v, In (k, v) (args_dict st) -> renderable v) ->
  configure_slim_command_line env st
  = (match dict_get "source" (args_dict st) with
     | None => Raise (KeyError "source")
     | Some (PStr _) => Return (command_line env (args_dict st))
     | Some _ => Raise TypeError
     end, st).
Proof.
  intros _.
  destruct (dict_get "source" (args_dict st)) as [source|] eqn:Hsrc.
  - destruct source as [b|n|x|path];
      try (unfold configure_slim_command_line, bind, getitem, iter_keys;
           rewrite Hsrc;
           destruct (configure_args_total env st (dict_keys (args_dict st))
                       "slim " (dict_get_key (args_dict st))) as [text ->];
           reflexivity).
    now apply configure_slim_command_line_total with (path := path).
  - unfold configure_slim_command_line, bind, getitem. now rewrite Hsrc.
Qed.

Lemma configure_args_prefix (keys : list string) :
  forall clargs st text st',
    configure_args env keys clargs st = (Return text, st') ->
    exists suffix, text = (clargs ++ suffix)%string.
Proof.
  induction keys as [|arg rest IH]; intros clargs st text st' Hrun;
    cbn [configure_args] in Hrun.
  - unfold ret in Hrun. injection Hrun as <- _. exists "".
    now rewrite append_empty_r.
  - destruct (String.eqb arg "source"); [now apply IH in Hrun|].
    apply bind_returns in Hrun as (v & st1 & _ & Hrun).
    apply IH in Hrun as [suffix ->]. eexists. apply append_assoc.
Qed.

(** X10: whatever the mapping, a list the builder returns starts with "slim"
    and consists of tokens: no element is empty or has whitespace in it. *)
Theorem configure_slim_command_line_shape (st st' : state)
  (tokens : list string) :
  configure_slim_command_line env st = (Return tokens, st') ->
  hd_error tokens = Some "slim" /\ Forall is_token tokens.
Proof.
  intros Hrun. unfold configure_slim_command_line in Hrun.
  apply bind_returns in Hrun as (source & st1 & _ & Hrun).
  apply bind_returns in Hrun as (keys & st2 & _ & Hrun).
  apply bind_returns in Hrun as (clargs & st3 & Hargs & Hrun).
  apply configure_args_prefix in Hargs as [suffix ->].
  destruct source as [b|n|x|path]; try discriminate.
  unfold ret in Hrun. injection Hrun as <- _.
  split; [|now apply split_from_tokens].
  unfold PyStr.split.
  change (String "s" (String "l" (String "i" (String "m"
            (String " " (suffix ++ path))))))
    with ("slim" ++ String " " (suffix ++ path))%string.
  now rewrite split_from_word.
Qed.

(** The tokens of a well-formed mapping. *)
Lemma command_line_tokens (d : dict) (path : string) :
  NoDup (dict_keys d) ->
  dict_get "source" d = Some (PStr path) ->
  is_token path ->
  (forall k v, In (k, v) (parameters d) ->
     PyStr.spaceless k = true
     /\ PyStr.spaceless (render_value env v) = true) ->
  command_line env d
  = "slim" :: flat_map (parameter_tokens env) (parameters d) ++ [path].
Proof.
  intros Hnd Hsrc [Hpath Hspace] Hps.
  unfold command_line, configure_slim_command_line, bind, getitem, iter_keys.
  cbn [with_args args_dict]. rewrite Hsrc. unfold dict_keys.
  rewrite configure_args_spec
    by (intros k v Hin; cbn [with_args args_dict]; now apply dict_get_in).
  cbn [fst ret]. unfold PyStr.split. rewrite append_assoc.
  change (args_dict (with_args d)) with d.
  change ("slim " ++ parameters_text env (parameters d) ++ path)%string
    with ("slim" ++ String " " (parameters_text env (parameters d) ++ path))
         %string.
  rewrite split_from_word by reflexivity.
  rewrite split_parameters_text by assumption.
  rewrite split_from_last by assumption.
  destruct path; [congruence | reflexivity].
Qed.

Lemma parameters_set_fresh (d : dict) (key : string) (v : pyval) :
  ~ In key (dict_keys d) -> key <> "source" ->
  dict_set key v d = d ++ [(key, v)]
  /\ parameters (dict_set key v d) = parameters d ++ [(key, v)].
Proof.
  intros Hfresh Hkey.
  assert (Hset : dict_set key v d = d ++ [(key, v)]).
  { induction d as [|[k w] d IH]; cbn [dict_set app]; [reflexivity|].
    destruct (String.eqb_spec k key) as [->|Hne].
    - exfalso. apply Hfresh. now left.
    - rewrite IH; [reflexivity|]. intros Hin. apply Hfresh. now right. }
  split; [assumption|]. rewrite Hset. unfold parameters.
  rewrite filter_app. cbn [filter fst].
  destruct (String.eqb_spec key "source"); [congruence | reflexivity].
Qed.

(** X12: setting a key that the mapping does not have yet adds its pair
    "-d", "name=value" as the last parameter, just before the source path,
    and leaves the rest of the command line as it was. *)
Theorem command_line_set_fresh (d : dict) (path key : string) (v : pyval) :
  NoDup (dict_keys d) ->
  dict_get "source" d = Some (PStr path) ->
  is_token path ->
  (forall k w, In (k, w) (parameters d) ->
     PyStr.spaceless k = true
     /\ PyStr.spaceless (render_value env w) = true) ->
  ~ In key (dict_keys d) ->
  PyStr.spaceless key = true ->
  PyStr.spaceless (render_value env v) = true ->
  command_line env (dict_set key v d)
  = removelast (command_line env d)
    ++ ["-d"; (key ++ "=" ++ render_value env v)%string; path].
Proof.
  intros Hnd Hsrc Hpath Hps Hfresh Hkey Hv.
  assert (Hne : key <> "source").
  { intros ->. apply Hfresh. clear - Hsrc.
    induction d as [|[k w] d IH]; cbn in *; [discriminate|].
    destruct (String.eqb_spec k "source"); [now left | right; now apply IH]. }
  destruct (parameters_set_fresh d key v Hfresh Hne) as [Hset Hparams].
  rewrite (command_line_tokens d path) by assumption.
  rewrite (command_line_tokens (dict_set key v d) path).
  - rewrite Hparams, flat_map_app. cbn [flat_map parameter_tokens fst snd app].
    change ("slim" :: flat_map (parameter_tokens env) (parameters d) ++ [path])
      with (("slim" :: flat_map (parameter_tokens env) (parameters d))
            ++ [path]).
    rewrite removelast_last. cbn [app]. now rewrite <- app_assoc.
  - rewrite Hset. unfold dict_keys. rewrite map_app. cbn [map fst].
    now apply NoDup_snoc.
  - rewrite dict_get_set_other by (intros Heq; now apply Hne).
    assumption.
  - assumption.
  - rewrite Hparams. intros k w Hin. apply in_app_or in Hin as [Hin|Hin].
    + now apply Hps.
    + destruct Hin as [Heq|[]]. injection Heq as <- <-. now split.
Qed.

End BuilderOutcomes.

(** ** More on the aggregator *)

Lemma launches_app (a b : list event) :
  launches (a ++ b) = launches a + launches b.
Proof. unfold launches. now rewrite filter_app, length_app. Qed.

Section AggregatorOutcomes.

Variable env : environment.

(** Whatever its outcome, the inner loop leaves the mapping alone, only adds
    to the trace, and launches the simulator at most once per repetition. *)
Lemma repetitions_any (num_grnas : Z) (runs : list Z) :
  forall acc st o st',
    repetitions env num_grnas runs acc st = (o, st') ->
    args_dict st' = args_dict st
    /\ exists events,
         trace st' = trace st ++ events
         /\ launches events <= List.length runs.
Proof.
  induction runs as [|i rest IH]; intros acc st o st' Hrun;
    cbn [repetitions] in Hrun.
  - unfold ret in Hrun. injection Hrun as _ <-.
    split; [reflexivity|]. exists []. cbn. now rewrite app_nil_r.
  - unfold bind at 1 in Hrun. unfold print in Hrun.
    unfold bind at 1 in Hrun.
    rewrite configure_slim_command_line_eval in Hrun.
    cbn [args_dict trace] in Hrun.
    destruct (fst (configure_slim_command_line env
                     (with_args (args_dict st)))) as [clargs|e].
    2:{ injection Hrun as _ <-. cbn. split; [reflexivity|].
        eexists. split; [reflexivity|]. cbn. lia. }
    unfold bind at 1 in Hrun. unfold run_slim in Hrun.
    cbn [args_dict trace] in Hrun.
    unfold bind at 1 in Hrun. unfold lift in Hrun.
    destruct (parse_slim _) as [parsed|e].
    2:{ injection Hrun as _ <-. cbn. split; [reflexivity|]. eexists.
        split; [rewrite <- app_assoc; reflexivity|]. cbn. lia. }
    unfold bind at 1 in Hrun. unfold py_float in Hrun.
    destruct (float_of_str env parsed) as [x|].
    2:{ injection Hrun as _ <-. cbn. split; [reflexivity|]. eexists.
        split; [rewrite <- app_assoc; reflexivity|]. cbn. lia. }
    unfold ret at 1 in Hrun.
    apply IH in Hrun as (Hargs & events & Htrace & Hcount).
    cbn [args_dict trace] in Hargs, Htrace.
    split; [assumption|].
    exists ([Print (run_message i num_grnas); Popen clargs] ++ events).
    split.
    + rewrite Htrace, <- !app_assoc. reflexivity.
    + rewrite launches_app. cbn. lia.
Qed.

(** The same for the sweep: only the sweep key may change, and there are at
    most 20 launches per point. *)
Lemma sweep_any (points : list Z) :
  forall acc st o st',
    sweep env points acc st = (o, st') ->
    (forall k, k <> "NUM_GRNAS" ->
       dict_get k (args_dict st') = dict_get k (args_dict st))
    /\ exists events,
         trace st' = trace st ++ events
         /\ launches events <= 20 * List.length points.
Proof.
  induction points as [|n rest IH]; intros acc st o st' Hrun;
    cbn [sweep] in Hrun.
  - unfold ret in Hrun. injection Hrun as _ <-.
    split; [reflexivity|]. exists []. cbn. now rewrite app_nil_r.
  - unfold bind at 1 in Hrun. unfold setitem in Hrun.
    unfold bind at 1 in Hrun. unfold print in Hrun.
    cbn [args_dict trace] in Hrun. unfold bind at 1 in Hrun.
    match type of Hrun with
    | context [repetitions env n ?runs ?a ?s] =>
        destruct (repetitions env n runs a s) as [[dcs|e] st3] eqn:Hreps;
        apply repetitions_any in Hreps as (Hargs & ev & Htrace & Hcount)
    end; cbn [args_dict trace] in Hargs, Htrace;
      change (List.length (range 0 total_runs)) with 20 in Hcount.
    + apply IH in Hrun as (Hframe & ev' & Htrace' & Hcount').
      split.
      * intros k Hk. rewrite Hframe by assumption. rewrite Hargs.
        now apply dict_get_set_other.
      * exists ([Print (sweep_message n)] ++ ev ++ ev'). split.
        -- rewrite Htrace', Htrace, <- !app_assoc. reflexivity.
        -- rewrite !launches_app. cbn [List.length] in *.
           change (launches [Print (sweep_message n)]) with 0. lia.
    + injection Hrun as _ <-. split.
      * intros k Hk. rewrite Hargs. now apply dict_get_set_other.
      * exists ([Print (sweep_message n)] ++ ev). split.
        -- rewrite Htrace, <- !app_assoc. reflexivity.
        -- rewrite launches_app. cbn [List.length] in *.
           change (launches [Print (sweep_message n)]) with 0. lia.
Qed.

(** X13: whether the aggregator returns or raises, the only key of the
    mapping that may have been added or changed is "NUM_GRNAS". *)
Theorem collect_data_frame_any (st : state) (k : string) :
  k <> "NUM_GRNAS" ->
  dict_get k (args_dict (snd (collect_data env st)))
  = dict_get k (args_dict st).
Proof.
  intros Hk.
  destruct (collect_data env st) as [o st'] eqn:Hrun.
  now apply (sweep_any (range 1 13) [] st o st' Hrun).
Qed.

(** X14: whether the aggregator returns or raises, what was printed and
    launched before is still there, in order, and at most 240 child
    processes were launched in addition. *)
Theorem collect_data_trace_any (st : state) :
  exists events,
    trace (snd (collect_data env st)) = trace st ++ events
    /\ launches events <= 240.
Proof.
  destruct (collect_data env st) as [o st'] eqn:Hrun.
  destruct (sweep_any (range 1 13) [] st o st' Hrun)
    as (_ & events & Htrace & Hcount).
  exists events. split; [assumption|].
  change (List.length (range 1 13)) with 12 in Hcount. lia.
Qed.

End AggregatorOutcomes.

Section AggregatorFailures.

Variable env : environment.

(** X17: the value the sweep key holds on entry, if any, plays no part: the
    aggregator does the same, with the same outcome and final state, whether
    or not the mapping was given a "NUM_GRNAS" before. *)
Theorem collect_data_resets_sweep_key (d : dict) (v : pyval)
  (events : list event) :
  collect_data env
    {| args_dict := dict_set "NUM_GRNAS" v d; trace := events |}
  = collect_data env {| args_dict := d; trace := events |}.
Proof.
  unfold collect_data.
  change (range 1 13) with (1%Z :: range 2 13). cbn [sweep].
  unfold bind at 1 3. unfold setitem. cbn [args_dict trace].
  now rewrite dict_set_set.
Qed.

Lemma first_point (st : state) :
  collect_data env st
  = bind (repetitions env 1 (range 0 total_runs) [])
         (fun drive_conversions =>
            sweep env (range 2 13) [calculate_average drive_conversions])
         {| args_dict := dict_set "NUM_GRNAS" (PInt 1) (args_dict st);
            trace := trace st ++ [Print (sweep_message 1)] |}.
Proof. reflexivity. Qed.

Lemma first_repetition (st : state) (acc : list float) :
  repetitions env 1 (range 0 total_runs) acc st
  = bind (configure_slim_command_line env)
         (fun clargs =>
            bind (run_slim env clargs)
              (fun slim_outcome =>
                 bind (lift (parse_slim slim_outcome))
                   (fun parsed_result =>
                      bind (py_float env parsed_result)
                        (fun slim_result =>
                           repetitions env 1 (range 1 total_runs)
                             (acc ++ [drive_conversion_of slim_result])))))
         {| args_dict := args_dict st;
            trace := trace st ++ [Print (run_message 0 1)] |}.
Proof. reflexivity. Qed.

(** X15: on a mapping without "source" the aggregator raises KeyError before
    any simulator is launched; by then it has set the sweep key to 1 and
    printed the first two progress lines. *)
Theorem collect_data_missing_source (st : state) :
  dict_get "source" (args_dict st) = None ->
  collect_data env st
  = (Raise (KeyError "source"),
     {| args_dict := dict_set "NUM_GRNAS" (PInt 1) (args_dict st);
        trace := trace st ++ [Print (sweep_message 1);
                              Print (run_message 0 1)] |}).
Proof.
  intros Hsrc. rewrite first_point. unfold bind at 1.
  rewrite first_repetition. unfold bind at 1.
  rewrite configure_slim_command_line_eval. cbn [args_dict trace].
  unfold configure_slim_command_line at 1, bind at 1, getitem at 1.
  cbn [with_args args_dict].
  rewrite dict_get_set_other by discriminate. rewrite Hsrc.
  cbn [fst]. now rewrite <- app_assoc.
Qed.

(** X16: when the output of the first run cannot be used, because the parser
    raises on it or because [float] rejects the field, the aggregator raises
    that exception at once: one simulator was launched, no other follows and
    no partial result is kept. *)
Theorem collect_data_first_failure (st : state) (path : string) (e : exn) :
  dict_get "source" (args_dict st) = Some (PStr path) ->
  let d1 := dict_set "NUM_GRNAS" (PInt 1) (args_dict st) in
  let history :=
    trace st ++ [Print (sweep_message 1); Print (run_message 0 1)] in
  let out := slim_output env history (command_line env d1) in
  parse_slim out = Raise e
  \/ (exists rate,
        parse_slim out = Return rate
        /\ float_of_str env rate = None
        /\ e = ValueError rate) ->
  collect_data env st
  = (Raise e,
     {| args_dict := d1;
        trace := history ++ [Popen (command_line env d1)] |}).
Proof.
  intros Hsrc d1 history out Hfail.
  rewrite first_point. unfold bind at 1.
  rewrite first_repetition. unfold bind at 1.
  rewrite (configure_slim_command_line_total env _ path)
    by (cbn [args_dict]; rewrite dict_get_set_other by discriminate;
        exact Hsrc).
  cbn [args_dict trace]. fold d1.
  unfold bind at 1, run_slim at 1. cbn [args_dict trace].
  rewrite <- app_assoc. cbn [app]. fold history. fold out.
  unfold bind at 1, lift at 1.
  destruct Hfail as [Hparse|(rate & Hparse & Hfloat & ->)]; rewrite Hparse.
  - reflexivity.
  - unfold bind at 1, py_float at 1. rewrite Hfloat. reflexivity.
Qed.

End AggregatorFailures.

Lemma collect_data_missing_source_witness :
  collect_data unit_environment (with_args [("CAPACITY", PInt 50000000)])
  = (Raise (KeyError "source"),
     {| args_dict := [("CAPACITY", PInt 50000000); ("NUM_GRNAS", PInt 1)];
        trace := [Print "Running simulations for 1 gRNAs...";
                  Print "Run 1/20 for 1 gRNAs"] |}).
Proof.
  apply (collect_data_missing_source unit_environment
           (with_args [("CAPACITY", PInt 50000000)])).
  reflexivity.
Defined.

Lemma collect_data_first_failure_witness :
  collect_data (stub_environment "Segmentation fault") sample_state
  = (Raise (UnboundLocalError "dr_rate"),
     {| args_dict := [("source", PStr "m.slim"); ("CAPACITY", PInt 50000000);
                      ("NUM_GRNAS", PInt 1)];
        trace := [Print "Running simulations for 1 gRNAs...";
                  Print "Run 1/20 for 1 gRNAs";
                  Popen ["slim"; "-d"; "CAPACITY=50000000"; "-d";
                         "NUM_GRNAS=1"; "m.slim"]] |}).
Proof.
  apply (collect_data_first_failure (stub_environment "Segmentation fault")
           sample_state "m.slim").
  - reflexivity.
  - left. reflexivity.
Defined.

(** ** main *)

Section Main.

Variable env : environment.
Variable source : string.

Lemma source_old : dict_get "source" (args_dict_old source) = Some (PStr source).
Proof. reflexivity. Qed.

Lemma source_new : dict_get "source" (args_dict_new source) = Some (PStr source).
Proof. reflexivity. Qed.

(** X18: when [main] reaches [plot], each of the two sequences it hands over
    has 12 elements, as many as [plot] has x values; the old model was swept
    first, then the new one, each over the points 1 to 12 with its own
    mapping, and 480 simulators were launched in all. *)
Theorem main_returns (events events' : list event) (old new : list pyval) :
  main env source events = (Return (old, new), events') ->
  List.length old = List.length gRNAs
  /\ List.length new = List.length gRNAs
  /\ events'
     = events
       ++ flat_map (sweep_events env (args_dict_old source)) sweep_points
       ++ flat_map (sweep_events env (args_dict_new source)) sweep_points
  /\ launches
       (flat_map (sweep_events env (args_dict_old source)) sweep_points
        ++ flat_map (sweep_events env (args_dict_new source)) sweep_points)
     = 480.
Proof.
  unfold main. intros Hrun.
  destruct (collect_data env _) as [[old'|e] st1] eqn:Hold in Hrun;
    [|discriminate].
  destruct (collect_data env _) as [[new'|e] st2] eqn:Hnew in Hrun;
    [|discriminate].
  injection Hrun as <- <- <-.
  unfold collect_data in Hold, Hnew.
  change (range 1 13) with sweep_points in Hold, Hnew.
  apply sweep_returns in Hold as (_ & Htrace1 & means1 & -> & Hmeans1).
  apply sweep_returns in Hnew as (_ & Htrace2 & means2 & -> & Hmeans2).
  cbn [app args_dict trace] in *.
  split; [now rewrite (Forall2_length_eq _ _ _ Hmeans1)|].
  split; [now rewrite (Forall2_length_eq _ _ _ Hmeans2)|].
  split; [now rewrite Htrace2, Htrace1, <- app_assoc|].
  rewrite launches_app. reflexivity.
Qed.

(** X19: with a simulator whose outputs parse, [main] reaches [plot],
    whatever the source path. *)
Theorem main_total (events : list event) :
  parsable env ->
  exists old new events',
    main env source events = (Return (old, new), events').
Proof.
  intros Hparsable. unfold main, collect_data.
  destruct (sweep_total env (range 1 13) Hparsable []
              {| args_dict := args_dict_old source; trace := events |}
              source source_old) as (old & st1 & ->).
  destruct (sweep_total env (range 1 13) Hparsable []
              {| args_dict := args_dict_new source; trace := trace st1 |}
              source source_new) as (new & st2 & ->).
  now exists old, new, (trace st2).
Qed.

(** X20: when every run yields the same field, of float value [x], [main]
    hands [plot] two equal sequences: 12 times the average of 20 copies of
    the transform of [x], for the old model and for the new one. *)
Theorem main_constant (events : list event) (rate : string) (x : float) :
  (forall history command_line_args,
      parse_slim (slim_output env history command_line_args) = Return rate) ->
  float_of_str env rate = Some x ->
  let mean := calculate_average (repeat (drive_conversion_of x) 20) in
  fst (main env source events) = Return (repeat mean 12, repeat mean 12).
Proof.
  intros Hstub Hx mean.
  assert (Hparsable : parsable env)
    by (intros history clargs; exists rate, x; auto).
  assert (Hsweep : forall st res st',
             sweep env (range 1 13) [] st = (Return res, st') ->
             res = repeat mean 12).
  { intros st res st' Hrun.
    apply sweep_returns in Hrun as (_ & _ & means & -> & Hmeans).
    cbn [app]. change 12 with (List.length (range 1 13)).
    apply Forall2_constant with (2 := Hmeans).
    intros n m. now apply point_result_constant with (rate := rate). }
  unfold main, collect_data.
  destruct (sweep_total env (range 1 13) Hparsable []
              {| args_dict := args_dict_old source; trace := events |}
              source source_old) as (old & st1 & Hold).
  rewrite Hold.
  destruct (sweep_total env (range 1 13) Hparsable []
              {| args_dict := args_dict_new source; trace := trace st1 |}
              source source_new) as (new & st2 & Hnew).
  rewrite Hnew. cbn [fst].
  now rewrite (Hsweep _ _ _ Hold), (Hsweep _ _ _ Hnew).
Qed.

(** X21: whether [main] reaches [plot] or an exception stops it, what was
    printed and launched before is kept and at most 480 simulators are
    launched. *)
Theorem main_trace_any (events : list event) :
  exists added,
    snd (main env source events) = events ++ added
    /\ launches added <= 480.
Proof.
  unfold main, collect_data.
  destruct (sweep env (range 1 13) [] _) as [o1 st1] eqn:Hold.
  apply sweep_any in Hold as (_ & ev1 & Htrace1 & Hcount1).
  cbn [args_dict trace] in Htrace1.
  change (List.length (range 1 13)) with 12 in Hcount1.
  destruct o1 as [old|e].
  - destruct (sweep env (range 1 13) [] _) as [o2 st2] eqn:Hnew.
    apply sweep_any in Hnew as (_ & ev2 & Htrace2 & Hcount2).
    cbn [args_dict trace] in Htrace2.
    change (List.length (range 1 13)) with 12 in Hcount2.
    exists (ev1 ++ ev2). split.
    + destruct o2; cbn [snd]; now rewrite Htrace2, Htrace1, <- app_assoc.
    + rewrite launches_app. lia.
  - exists ev1. split; [assumption | lia].
Qed.

(** X22: the argument list of every run of the old model, for a source path
    that is one token and an interpreter whose float texts have no
    whitespace: the invocation name, the eight parameters in the order in
    which [main] set them, the sweep key last, then the source path. *)
Theorem main_command_line_old (n : Z) :
  is_token source ->
  (forall x, PyStr.spaceless (float_repr env x) = true) ->
  command_line env (dict_set "NUM_GRNAS" (PInt n) (args_dict_old source))
  = ["slim";
     "-d"; "CAPACITY=50000000";
     "-d"; "DROP_SIZE=1000";
     "-d"; "DRIVE_FITNESS_VALUE=" ++ float_repr env 0x1.ccccccccccccdp-1;
     "-d"; "FEMALE_SOMATIC_FITNESS_VALUE=" ++ float_repr env 1;
     "-d"; "GENE_DISRUPTION_DRIVE_FITNESS_MULTIPLIER="
           ++ float_repr env 0x1.e666666666666p-1;
     "-d"; "R1_OCCURRENCE_RATE=" ++ float_repr env 0x1.47ae147ae147bp-7;
     "-d"; "HOMING_EDGE_EFFECT=" ++ float_repr env 0x1.c28f5c28f5c29p-5;
     "-d"; "DOUBLE_MISMATCH_PENALTY=" ++ float_repr env 1;
     "-d"; "NUM_GRNAS=" ++ PyStr.of_int n;
     source]%string.
Proof.
  intros Hsource Hrepr.
  rewrite (command_line_tokens env _ source).
  - reflexivity.
  - cbn. repeat constructor; cbn; intuition discriminate.
  - reflexivity.
  - assumption.
  - intros k v Hin. cbn in Hin.
    repeat (destruct Hin as [Hin|Hin];
            [injection Hin as <- <-; split;
             [reflexivity
             | cbn [render_value format_value];
               first [reflexivity | apply Hrepr | apply of_int_token]]|]).
    contradiction.
Qed.

End Main.

(** ** The further properties at concrete runs *)

Lemma parse_slim_returns_iff_witness :
  parse_slim "PYTHON:: a b c d e f 0.73 h" = Return "0.73".
Proof.
  apply (proj1 (parse_slim_returns_iff "PYTHON:: a b c d e f 0.73 h")).
  split.
  - repeat constructor. discriminate.
  - exists "PYTHON:: a b c d e f 0.73 h". split; reflexivity.
Defined.

Lemma parse_slim_unbound_iff_witness :
  parse_slim ("SLiM 4" ++ nl ++ "crashed")
  = Raise (UnboundLocalError "dr_rate").
Proof.
  apply (proj2 (parse_slim_unbound_iff ("SLiM 4" ++ nl ++ "crashed"))).
  reflexivity.
Defined.

Lemma parse_slim_index_error_iff_witness :
  parse_slim ("PYTHON:: 0.5" ++ nl ++ "PYTHON:: a b c d e f 0.73 h")
  = Raise IndexError.
Proof.
  apply (proj2 (parse_slim_index_error_iff
                  ("PYTHON:: 0.5" ++ nl ++ "PYTHON:: a b c d e f 0.73 h"))).
  change (marker_lines
            ("PYTHON:: 0.5" ++ nl ++ "PYTHON:: a b c d e f 0.73 h"))
    with ["PYTHON:: 0.5"; "PYTHON:: a b c d e f 0.73 h"].
  apply Exists_cons_hd. reflexivity.
Defined.

Lemma configure_slim_command_line_shape_witness :
  let tokens := ["slim"; "-d"; "CAPACITY=50000000"; "m.slim"] in
  hd_error tokens = Some "slim" /\ Forall is_token tokens.
Proof.
  intros tokens.
  apply (configure_slim_command_line_shape unit_environment
           sample_state sample_state tokens).
  reflexivity.
Defined.

Lemma render_value_token_witness :
  is_token (render_value unit_environment (PInt (-12))).
Proof.
  apply render_value_token.
  - right. exists (-12)%Z. reflexivity.
  - vm_compute. reflexivity.
Defined.

Lemma configure_slim_command_line_outcome_witness :
  configure_slim_command_line unit_environment
    (with_args [("source", PInt 3); ("CAPACITY", PInt 50000000)])
  = (Raise TypeError,
     with_args [("source", PInt 3); ("CAPACITY", PInt 50000000)]).
Proof.
  apply (configure_slim_command_line_outcome unit_environment
           (with_args [("source", PInt 3); ("CAPACITY", PInt 50000000)])).
  intros k v Hin. cbn in Hin.
  destruct Hin as [Hin|[Hin|[]]]; injection Hin as _ <-;
    vm_compute; reflexivity.
Defined.

Lemma command_line_set_fresh_witness :
  command_line unit_environment
    (dict_set "NUM_GRNAS" (PInt 1) (args_dict sample_state))
  = removelast (command_line unit_environment (args_dict sample_state))
    ++ ["-d"; "NUM_GRNAS=1"; "m.slim"].
Proof.
  apply (command_line_set_fresh unit_environment (args_dict sample_state)
           "m.slim" "NUM_GRNAS" (PInt 1)).
  - repeat constructor; cbn; intuition discriminate.
  - reflexivity.
  - split; [discriminate | reflexivity].
  - intros k w Hin. cbn in Hin.
    destruct Hin as [Hin|[]]. injection Hin as <- <-. split; reflexivity.
  - cbn. intuition discriminate.
  - reflexivity.
  - reflexivity.
Defined.

Lemma collect_data_frame_any_witness :
  dict_get "CAPACITY"
    (args_dict (snd (collect_data (stub_environment "") sample_state)))
  = dict_get "CAPACITY" (args_dict sample_state).
Proof.
  apply (collect_data_frame_any (stub_environment "") sample_state).
  discriminate.
Defined.

Lemma unit_parsable : parsable unit_environment.
Proof.
  intros history clargs. exists "1.0", 1%float. split; reflexivity.
Qed.

Lemma main_returns_witness :
  let old := repeat (PFloat 1) 12 in
  let events' := snd (main unit_environment "m.slim" []) in
  List.length old = List.length gRNAs
  /\ List.length old = List.length gRNAs
  /\ events'
     = [] ++ flat_map (sweep_events unit_environment (args_dict_old "m.slim"))
                      sweep_points
       ++ flat_map (sweep_events unit_environment (args_dict_new "m.slim"))
                   sweep_points
  /\ launches
       (flat_map (sweep_events unit_environment (args_dict_old "m.slim"))
                 sweep_points
        ++ flat_map (sweep_events unit_environment (args_dict_new "m.slim"))
                    sweep_points)
     = 480.
Proof.
  intros old events'.
  apply (main_returns unit_environment "m.slim" [] events' old old).
  subst old events'. vm_compute. reflexivity.
Defined.

Lemma main_total_witness :
  exists old new events',
    main unit_environment "m.slim" [] = (Return (old, new), events').
Proof. apply main_total. exact unit_parsable. Defined.

Lemma main_constant_witness :
  let mean := calculate_average (repeat (drive_conversion_of 1) 20) in
  fst (main unit_environment "m.slim" [])
  = Return (repeat mean 12, repeat mean 12).
Proof.
  apply (main_constant unit_environment "m.slim" [] "1.0" 1%float).
  - intros history clargs. reflexivity.
  - reflexivity.
Defined.

Lemma main_command_line_old_witness :
  command_line unit_environment
    (dict_set "NUM_GRNAS" (PInt 3) (args_dict_old "m.slim"))
  = ["slim";
     "-d"; "CAPACITY=50000000";
     "-d"; "DROP_SIZE=1000";
     "-d"; "DRIVE_FITNESS_VALUE="
           ++ float_repr unit_environment 0x1.ccccccccccccdp-1;
     "-d"; "FEMALE_SOMATIC_FITNESS_VALUE=" ++ float_repr unit_environment 1;
     "-d"; "GENE_DISRUPTION_DRIVE_FITNESS_MULTIPLIER="
           ++ float_repr unit_environment 0x1.e666666666666p-1;
     "-d"; "R1_OCCURRENCE_RATE="
           ++ float_repr unit_environment 0x1.47ae147ae147bp-7;
     "-d"; "HOMING_EDGE_EFFECT="
           ++ float_repr unit_environment 0x1.c28f5c28f5c29p-5;
     "-d"; "DOUBLE_MISMATCH_PENALTY=" ++ float_repr unit_environment 1;
     "-d"; "NUM_GRNAS=" ++ PyStr.of_int 3;
     "m.slim"]%string.
Proof.
  apply (main_command_line_old unit_environment "m.slim" 3).
  - split; [discriminate | reflexivity].
  - intros x. cbn [float_repr unit_environment stub_environment].
    unfold table_repr.
    destruct (x =? 0.5)%float; [reflexivity|].
    destruct (x =? 1)%float; reflexivity.
Defined.
